(** * Calorie-expenditure notebooks: a shallow embedding

    The repository is a chain of notebooks that exchange CSV files:
    [preprocessing_step2], [feature_engineering_step2b],
    [baseline_modelling_step3] and [blended_xgb70_lgb30].  Each notebook is
    embedded as a program over a store of files; a file holds a data frame.

    Numbers.  The notebooks compute in IEEE binary64 (pandas' float64).  The
    arithmetic the code uses is an interface [Arith] with two instances:
    - [binary64]: Rocq's primitive floats, the arithmetic the code runs;
    - [xreal]: exact real arithmetic, with one extra element for a value that
      is not a finite number (NaN or an infinity).
    [np.log1p], [np.expm1] and [np.sqrt] are the interface [Analytic], which
    only exact arithmetic implements.

    Library calls (pandas, NumPy, scikit-learn) are modelled from their
    documented behaviour; what is left abstract is said where it is. *)

From Stdlib Require Import Reals Lra Floats Uint63 ZArith Permutation.
From stdpp Require Import gmap strings list fin_maps.

Set Warnings "-inexact-float".

(** ** Arithmetic *)

Class Arith (num : Type) := {
  nadd : num -> num -> num;
  nsub : num -> num -> num;
  nmul : num -> num -> num;
  ndiv : num -> num -> num;
  nneg : num -> num;
  (** conversion of an int64 value, as pandas does when an integer column
      meets a float *)
  nofZ : Z -> num;
  (** the missing value pandas fills in *)
  nnan : num;
  (** [==] and [<=] as the language evaluates them *)
  neqb : num -> num -> bool;
  nleb : num -> num -> bool;
  (** the two float literals of the blending notebook *)
  n0_7 : num;
  n0_3 : num
}.

Class Analytic (num : Type) `{!Arith num} := {
  nlog1p : num -> num;
  nexpm1 : num -> num;
  nsqrt : num -> num
}.

Definition nle {num : Type} `{!Arith num} (a b : num) : Prop := nleb a b = true.
Definition nmin {num : Type} `{!Arith num} (a b : num) : num := if nleb a b then a else b.
Definition nmax {num : Type} `{!Arith num} (a b : num) : num := if nleb a b then b else a.

(** [x ** 2] on a float column is the product [x * x]. *)
Definition nsquare {num : Type} `{!Arith num} (x : num) : num := nmul x x.

(** *** binary64 *)

Definition float_of_Z (z : Z) : float :=
  match z with
  | Zneg p => PrimFloat.opp (PrimFloat.of_uint63 (Uint63.of_Z (Zpos p)))
  | _ => PrimFloat.of_uint63 (Uint63.of_Z z)
  end.

#[export] Instance binary64 : Arith float := {
  nadd := PrimFloat.add;
  nsub := PrimFloat.sub;
  nmul := PrimFloat.mul;
  ndiv := PrimFloat.div;
  nneg := PrimFloat.opp;
  nofZ := float_of_Z;
  nnan := PrimFloat.nan;
  neqb := PrimFloat.eqb;
  nleb := PrimFloat.leb;
  n0_7 := 0.7%float;
  n0_3 := 0.3%float
}.

(** *** Exact arithmetic *)

(** [None] stands for a value that is not a finite number (NaN, or an
    infinity, whose sign is not kept): every operation on it gives it back
    and every comparison with it is false. *)
Definition xreal : Type := option R.

Definition xlift2 (f : R -> R -> R) (a b : xreal) : xreal :=
  match a, b with
  | Some x, Some y => Some (f x y)
  | _, _ => None
  end.

Definition xdiv (a b : xreal) : xreal :=
  match a, b with
  | Some x, Some y => if Req_dec_T y 0 then None else Some (x / y)%R
  | _, _ => None
  end.

Definition xeqb (a b : xreal) : bool :=
  match a, b with
  | Some x, Some y => if Req_dec_T x y then true else false
  | _, _ => false
  end.

Definition xleb (a b : xreal) : bool :=
  match a, b with
  | Some x, Some y => if Rle_dec x y then true else false
  | _, _ => false
  end.

#[export] Instance exact : Arith xreal := {
  nadd := xlift2 Rplus;
  nsub := xlift2 Rminus;
  nmul := xlift2 Rmult;
  ndiv := xdiv;
  nneg := option_map Ropp;
  nofZ := fun z => Some (IZR z);
  nnan := None;
  neqb := xeqb;
  nleb := xleb;
  n0_7 := Some 0.7%R;
  n0_3 := Some 0.3%R
}.

(** [np.log1p] is finite on (-1, +inf); at -1 it is -inf and below it NaN. *)
Definition xlog1p (a : xreal) : xreal :=
  match a with
  | Some x => if Rlt_dec (-1) x then Some (ln (1 + x))%R else None
  | None => None
  end.

Definition xexpm1 (a : xreal) : xreal :=
  match a with
  | Some y => Some (exp y - 1)%R
  | None => None
  end.

Definition xsqrt (a : xreal) : xreal :=
  match a with
  | Some x => if Rle_dec 0 x then Some (R_sqrt.sqrt x) else None
  | None => None
  end.

#[export] Instance exact_analytic : Analytic xreal := {
  nlog1p := xlog1p;
  nexpm1 := xexpm1;
  nsqrt := xsqrt
}.

(** ** Exceptions *)

Inductive error : Type :=
| FileNotFoundError (path : string)
| KeyError (key : string)
| ValueError
| TypeError
| AssertionError (msg : string)
(** not a Python exception: the input has a dtype the notebooks' files never
    have and whose pandas behaviour is not reproduced here *)
| Unmodelled.

Definition result (A : Type) : Type := error + A.

#[export] Instance result_ret : MRet result := fun A x => inr x.
#[export] Instance result_bind : MBind result := fun A B f m =>
  match m with
  | inl e => inl e
  | inr x => f x
  end.

Definition raise {A : Type} (e : error) : result A := inl e.

Definition is_error {A : Type} (r : result A) : Prop :=
  match r with
  | inl _ => True
  | inr _ => False
  end.

(** ** Series and data frames *)

(** A column has one dtype: float64, int64, object (strings) or bool.  The
    index is the default [RangeIndex] throughout ([read_csv] creates it and
    every [to_csv] is called with [index=False]), so a row is a position. *)
Inductive Series (num : Type) : Type :=
| SFloat (xs : list num)
| SInt (zs : list Z)
| SStr (ss : list string)
| SBool (bs : list bool).

Arguments SFloat {num} xs.
Arguments SInt {num} zs.
Arguments SStr {num} ss.
Arguments SBool {num} bs.

Inductive cell (num : Type) : Type :=
| CFloat (x : num)
| CInt (z : Z)
| CStr (s : string)
| CBool (b : bool).

Arguments CFloat {num} x.
Arguments CInt {num} z.
Arguments CStr {num} s.
Arguments CBool {num} b.

(** Columns in their order, each with its label. *)
Abbreviation DataFrame num := (list (string * Series num)).

Definition wrap64 (z : Z) : Z := ((z + 2 ^ 63) mod 2 ^ 64 - 2 ^ 63)%Z.

(** Python's sort order on [str]: by code point. *)
Fixpoint insert_cat (c : string) (cs : list string) : list string :=
  match cs with
  | [] => [c]
  | d :: cs' =>
      if String.eqb c d then cs
      else if String.ltb c d then c :: cs
      else d :: insert_cat c cs'
  end.

(** The sorted distinct values of an object column. *)
Definition categories (ss : list string) : list string :=
  foldr insert_cat [] ss.

Section Frames.
Context {num : Type} `{!Arith num}.

Definition series_len (s : Series num) : nat :=
  match s with
  | SFloat xs => length xs
  | SInt zs => length zs
  | SStr ss => length ss
  | SBool bs => length bs
  end.

Definition cells (s : Series num) : list (cell num) :=
  match s with
  | SFloat xs => map CFloat xs
  | SInt zs => map CInt zs
  | SStr ss => map CStr ss
  | SBool bs => map CBool bs
  end.

Definition labels (df : DataFrame num) : list string := map fst df.

Definition nrows (df : DataFrame num) : nat :=
  match df with
  | [] => 0
  | (_, s) :: _ => series_len s
  end.

Definition row (df : DataFrame num) (i : nat) : list (cell num) :=
  omap (fun c => cells c.2 !! i) df.

Definition rows (df : DataFrame num) : list (list (cell num)) :=
  map (row df) (seq 0 (nrows df)).

(** [df[key]] *)
Fixpoint getitem (df : DataFrame num) (key : string) : result (Series num) :=
  match df with
  | [] => raise (KeyError key)
  | (l, s) :: df' => if String.eqb l key then mret s else getitem df' key
  end.

(** [df[key] = s], for a Series [s] computed from columns of [df] itself (it
    has [df]'s index, so no realignment takes place): an existing column is
    replaced where it stands, a new one is appended. *)
Fixpoint setitem (df : DataFrame num) (key : string) (s : Series num) : DataFrame num :=
  match df with
  | [] => [(key, s)]
  | (l, c) :: df' =>
      if String.eqb l key then (l, s) :: df' else (l, c) :: setitem df' key s
  end.

(** [df.drop(columns=[key])] *)
Definition drop_columns (df : DataFrame num) (key : string) : result (DataFrame num) :=
  if bool_decide (key ∈ labels df)
  then mret (filter (fun c => c.1 ≠ key) df)
  else raise (KeyError key).

(** The float64 view of a numeric column. *)
Definition floats_of (s : Series num) : result (list num) :=
  match s with
  | SFloat xs => mret xs
  | SInt zs => mret (map nofZ zs)
  | SStr _ => raise TypeError
  | SBool _ => raise Unmodelled
  end.

(** Two Series of different length have different indexes: pandas aligns
    them on the union and fills the missing side with NaN. *)
Definition pad (n : nat) (xs : list num) : list num :=
  xs ++ replicate (n - length xs) nnan.

Definition align (f : num -> num -> num) (xs ys : list num) : list num :=
  let n := Nat.max (length xs) (length ys) in
  zip_with f (pad n xs) (pad n ys).

(** [s1 / s2]: true division, always float64. *)
Definition series_div (s1 s2 : Series num) : result (Series num) :=
  xs ← floats_of s1;
  ys ← floats_of s2;
  mret (SFloat (align ndiv xs ys)).

(** [s1 * s2] and [s1 + s2]: int64 (wrapping) on two integer columns of one
    length, float64 otherwise.  (pandas repeats a string by an integer.) *)
Definition series_arith (fz : Z -> Z -> Z) (f : num -> num -> num)
    (s1 s2 : Series num) : result (Series num) :=
  match s1, s2 with
  | SInt zs1, SInt zs2 =>
      if Nat.eqb (length zs1) (length zs2)
      then mret (SInt (zip_with (fun a b => wrap64 (fz a b)) zs1 zs2))
      else mret (SFloat (align f (map nofZ zs1) (map nofZ zs2)))
  | SStr _, SInt _ | SInt _, SStr _ => raise Unmodelled
  | _, _ =>
      xs ← floats_of s1;
      ys ← floats_of s2;
      mret (SFloat (align f xs ys))
  end.

Definition series_mul : Series num -> Series num -> result (Series num) :=
  series_arith Z.mul nmul.

Definition series_add : Series num -> Series num -> result (Series num) :=
  series_arith Z.add nadd.

(** [s / z] for an integer literal [z] *)
Definition series_div_int (s : Series num) (z : Z) : result (Series num) :=
  xs ← floats_of s;
  mret (SFloat (map (fun x => ndiv x (nofZ z)) xs)).

(** [s ** 2] *)
Definition series_pow2 (s : Series num) : result (Series num) :=
  match s with
  | SFloat xs => mret (SFloat (map nsquare xs))
  | SInt zs => mret (SInt (map (fun z => wrap64 (z * z)) zs))
  | SStr _ => raise TypeError
  | SBool _ => raise Unmodelled
  end.

(** [c * s] for a float literal [c] *)
Definition scalar_mul (c : num) (s : Series num) : result (Series num) :=
  xs ← floats_of s;
  mret (SFloat (map (nmul c) xs)).

(** [s1 == s2]: refused unless the two indexes are the same, that is, here,
    unless the lengths agree; then element by element. *)
Definition series_eq (s1 s2 : Series num) : result (list bool) :=
  if negb (Nat.eqb (series_len s1) (series_len s2)) then raise ValueError
  else match s1, s2 with
       | SInt zs1, SInt zs2 => mret (zip_with Z.eqb zs1 zs2)
       | SStr ss1, SStr ss2 => mret (zip_with String.eqb ss1 ss2)
       | SBool bs1, SBool bs2 => mret (zip_with Bool.eqb bs1 bs2)
       | SFloat xs, SFloat ys => mret (zip_with neqb xs ys)
       | SFloat xs, SInt zs => mret (zip_with neqb xs (map nofZ zs))
       | SInt zs, SFloat ys => mret (zip_with neqb (map nofZ zs) ys)
       | _, _ => raise Unmodelled
       end.

(** [.all()] *)
Definition all (bs : list bool) : bool := forallb (fun b => b) bs.

(** The indicator columns of [pd.get_dummies] for one object column: one bool
    column per category, labelled [prefix_category], the first category left
    out under [drop_first=True]. *)
Definition dummy_columns (prefix : string) (ss : list string) : DataFrame num :=
  map (fun c => (String.append prefix (String.append "_" c),
                 SBool (map (String.eqb c) ss)))
      (tail (categories ss)).

(** [pd.get_dummies(df, columns=[key], drop_first=True)]: the other columns
    in their order, then the indicator columns. *)
Definition get_dummies (df : DataFrame num) (key : string) : result (DataFrame num) :=
  s ← getitem df key;
  match s with
  | SStr ss =>
      mret (filter (fun c => c.1 ≠ key) df ++ dummy_columns key ss)
  | _ => raise Unmodelled
  end.

(** Rows by position, [s.iloc[idx]] and [df.iloc[idx]]. *)
Definition positions {A : Type} (idx : list nat) (xs : list A) : list A :=
  omap (fun i => xs !! i) idx.

Definition series_iloc (s : Series num) (idx : list nat) : Series num :=
  match s with
  | SFloat xs => SFloat (positions idx xs)
  | SInt zs => SInt (positions idx zs)
  | SStr ss => SStr (positions idx ss)
  | SBool bs => SBool (positions idx bs)
  end.

Definition iloc (df : DataFrame num) (idx : list nat) : DataFrame num :=
  map (fun c => (c.1, series_iloc c.2 idx)) df.

(** [pd.DataFrame({'id': ids, 'Calories': preds})] with a Series [ids] and an
    array [preds]: the index is that of [ids], and an array of another length
    is refused. *)
Definition frame_of_ids_and_array (ids : Series num) (preds : list num)
    : result (DataFrame num) :=
  if Nat.eqb (length preds) (series_len ids)
  then mret [("id"%string, ids); ("Calories"%string, SFloat preds)]
  else raise ValueError.

End Frames.

(** ** The file store and the notebook monad *)

(** A CSV file holds a data frame: [to_csv(index=False)] followed by
    [read_csv] is taken to give the frame back, dtypes and floats included.
    Files that do not change are the environment: a missing file is a
    [FileNotFoundError]. *)
Abbreviation FS num := (gmap string (DataFrame num)).

(** A notebook runs top to bottom over the files and stops at the first
    exception; what it wrote before stays written. *)
Definition M (num A : Type) : Type := FS num -> result A * FS num.

#[export] Instance M_ret {num : Type} : MRet (M num) := fun A x fs => (inr x, fs).
#[export] Instance M_bind {num : Type} : MBind (M num) := fun A B f m fs =>
  match m fs with
  | (inl e, fs') => (inl e, fs')
  | (inr x, fs') => f x fs'
  end.

Definition lift {num A : Type} (r : result A) : M num A := fun fs => (r, fs).

Definition read_csv {num : Type} (path : string) : M num (DataFrame num) :=
  fun fs =>
    match fs !! path with
    | Some df => (inr df, fs)
    | None => (inl (FileNotFoundError path), fs)
    end.

Definition to_csv {num : Type} (df : DataFrame num) (path : string) : M num unit :=
  fun fs => (inr tt, <[path := df]> fs).

(** [assert b, msg] *)
Definition assert {num : Type} (b : bool) (msg : string) : M num unit :=
  if b then mret tt else lift (raise (AssertionError msg)).

(** ** blended_xgb70_lgb30.ipynb *)

Section Blending.
Context {num : Type} `{!Arith num}.

Definition xgb_file : string := "datasets/submissions/submission_xgb_fe_v2_FIXED.csv".
Definition lgb_file : string := "datasets/submissions/submission_lgbm_optuna_may21_FIXED.csv".
Definition output_path : string :=
  "datasets/submissions/submission_blended_xgb70_lgb30_may21.csv".

(** [0.7 * xgb_df['Calories'] + 0.3 * lgb_df['Calories']] on one row *)
Definition blend (pred_A pred_B : num) : num :=
  nadd (nmul n0_7 pred_A) (nmul n0_3 pred_B).

Definition blended_xgb70_lgb30 : M num unit :=
  xgb_df ← read_csv xgb_file;
  lgb_df ← read_csv lgb_file;
  ids_xgb ← lift (getitem xgb_df "id");
  ids_lgb ← lift (getitem lgb_df "id");
  same ← lift (series_eq ids_xgb ids_lgb);
  assert (all same) "IDs do not match between the two submission files.";;
  cal_xgb ← lift (getitem xgb_df "Calories");
  weighted_xgb ← lift (scalar_mul n0_7 cal_xgb);
  cal_lgb ← lift (getitem lgb_df "Calories");
  weighted_lgb ← lift (scalar_mul n0_3 cal_lgb);
  blended_preds ← lift (series_add weighted_xgb weighted_lgb);
  ids ← lift (getitem xgb_df "id");
  let submission_blended := [("id"%string, ids); ("Calories"%string, blended_preds)] in
  to_csv submission_blended output_path.

End Blending.

(** ** preprocessing_step2.ipynb *)

Section Preprocessing.
Context {num : Type} `{!Arith num} `{!Analytic num}.

(** [np.log1p(s)] *)
Definition series_log1p (s : Series num) : result (Series num) :=
  xs ← floats_of s;
  mret (SFloat (map nlog1p xs)).

Definition preprocessing_step2 : M num unit :=
  train ← read_csv "datasets/train.csv";
  test ← read_csv "datasets/test.csv";
  test_ids ← lift (getitem test "id");
  train ← lift (drop_columns train "id");
  test ← lift (drop_columns test "id");
  train ← lift (get_dummies train "Sex");
  test ← lift (get_dummies test "Sex");
  calories ← lift (getitem train "Calories");
  log_calories ← lift (series_log1p calories);
  let train := setitem train "Calories" log_calories in
  to_csv train "datasets/train_preprocessed.csv";;
  to_csv test "datasets/test_preprocessed.csv";;
  to_csv [("id"%string, test_ids)] "datasets/test_ids.csv".

End Preprocessing.

(** ** feature_engineering_step2b.ipynb *)

Section FeatureEngineering.
Context {num : Type} `{!Arith num}.

(** The four derived values of one row. *)
Definition BMI (weight height : num) : num :=
  ndiv weight (nsquare (ndiv height (nofZ 100))).

Definition Intensity (heart_rate duration : num) : num :=
  ndiv heart_rate duration.

Definition TempHeart (body_temp heart_rate : num) : num :=
  nmul body_temp heart_rate.

Definition Duration2 (duration : num) : num := nsquare duration.

(** [df['BMI'] = df['Weight'] / ((df['Height'] / 100) ** 2)] *)
Definition add_BMI (df : DataFrame num) : result (DataFrame num) :=
  weight ← getitem df "Weight";
  height ← getitem df "Height";
  metres ← series_div_int height 100;
  squared ← series_pow2 metres;
  bmi ← series_div weight squared;
  mret (setitem df "BMI" bmi).

(** [df['Intensity'] = df['Heart_Rate'] / df['Duration']] *)
Definition add_Intensity (df : DataFrame num) : result (DataFrame num) :=
  heart_rate ← getitem df "Heart_Rate";
  duration ← getitem df "Duration";
  intensity ← series_div heart_rate duration;
  mret (setitem df "Intensity" intensity).

(** [df['TempHeart'] = df['Body_Temp'] * df['Heart_Rate']] *)
Definition add_TempHeart (df : DataFrame num) : result (DataFrame num) :=
  body_temp ← getitem df "Body_Temp";
  heart_rate ← getitem df "Heart_Rate";
  temp_heart ← series_mul body_temp heart_rate;
  mret (setitem df "TempHeart" temp_heart).

(** [df['Duration2'] = df['Duration'] ** 2] *)
Definition add_Duration2 (df : DataFrame num) : result (DataFrame num) :=
  duration ← getitem df "Duration";
  duration2 ← series_pow2 duration;
  mret (setitem df "Duration2" duration2).

Definition feature_engineering_step2b : M num unit :=
  train ← read_csv "datasets/train_preprocessed.csv";
  test ← read_csv "datasets/test_preprocessed.csv";
  train ← lift (add_BMI train);
  test ← lift (add_BMI test);
  train ← lift (add_Intensity train);
  test ← lift (add_Intensity test);
  train ← lift (add_TempHeart train);
  test ← lift (add_TempHeart test);
  train ← lift (add_Duration2 train);
  test ← lift (add_Duration2 test);
  to_csv train "datasets/train_fe.csv";;
  to_csv test "datasets/test_fe.csv";;
  (* the last cell reads both files back and only prints summaries *)
  train_fe ← read_csv "datasets/train_fe.csv";
  test_fe ← read_csv "datasets/test_fe.csv";
  mret tt.

End FeatureEngineering.

(** ** baseline_modelling_step3.ipynb *)

(** A scikit-learn regressor.  Training and the fitted function are left
    abstract: [fit X y] is the predictor obtained from the rows of [X] and
    the targets [y], a function of one row. *)
Record Estimator (num : Type) : Type := {
  fit : DataFrame num -> list num -> list (cell num) -> num
}.

Arguments fit {num} e X y r.

Section Baseline.
Context {num : Type} `{!Arith num} `{!Analytic num}.

(** [RandomState(42)]'s shuffle of [0 .. n-1]; the generator is not
    modelled, the facts that need it take that it returns a permutation. *)
Variable shuffle42 : nat -> list nat.

Variables lr rf xgb lgb : Estimator num.

(** [model.predict(df)] *)
Definition predict (fitted : list (cell num) -> num) (df : DataFrame num) : list num :=
  map fitted (rows df).

(** [KFold]: the first [n mod k] folds have [n / k + 1] rows, the others
    [n / k]. *)
Definition fold_sizes (n k : nat) : list nat :=
  map (fun j => n / k + (if j <? n mod k then 1 else 0)) (seq 0 k).

(** Consecutive slices of the shuffled indices. *)
Fixpoint slices (sizes : list nat) (indices : list nat) : list (list nat) :=
  match sizes with
  | [] => []
  | size :: sizes' => take size indices :: slices sizes' (drop size indices)
  end.

(** [KFold(n_splits=k, shuffle=True, random_state=42).split(X)] on [n] rows:
    the (train, test) index pairs, each in increasing row order; refused when
    there are fewer rows than folds. *)
Definition KFold_split (k n : nat) : result (list (list nat * list nat)) :=
  if n <? k then raise ValueError
  else mret (map (fun held_out =>
                    (filter (fun i => i ∉ held_out) (seq 0 n),
                     filter (fun i => i ∈ held_out) (seq 0 n)))
                 (slices (fold_sizes n k) (shuffle42 n))).

Definition nsum (xs : list num) : num := foldl nadd (nofZ 0) xs.

(** [.mean()] *)
Definition nmean (xs : list num) : num :=
  ndiv (nsum xs) (nofZ (Z.of_nat (length xs))).

(** [sklearn.metrics.mean_squared_log_error], by its formula *)
Definition mean_squared_log_error (y_true y_pred : list num) : num :=
  nmean (zip_with (fun t p => nsquare (nsub (nlog1p t) (nlog1p p))) y_true y_pred).

(** [cross_val_score(model, X, y, scoring='neg_mean_squared_log_error',
    cv=kf)]: per fold, fit on the training rows and score the held-out rows;
    the scorer is the negated metric. *)
Definition cross_val_score (model : Estimator num) (X : DataFrame num) (y : list num)
    (folds : list (list nat * list nat)) : list num :=
  map (fun '(train_index, test_index) =>
         let fitted := fit model (iloc X train_index) (positions train_index y) in
         nneg (mean_squared_log_error (positions test_index y)
                                      (predict fitted (iloc X test_index))))
      folds.

Definition rmsle_cv (model : Estimator num) (X : DataFrame num) (y : Series num)
    : result num :=
  targets ← floats_of y;
  if negb (Nat.eqb (nrows X) (length targets)) then raise ValueError
  else
    kf ← KFold_split 5 (nrows X);
    let rmsle_scores := map nneg (cross_val_score model X targets kf) in
    mret (nsqrt (nmean rmsle_scores)).

Definition baseline_modelling_step3 : M num unit :=
  train ← read_csv "datasets/train_preprocessed.csv";
  test ← read_csv "datasets/test_preprocessed.csv";
  y ← lift (getitem train "Calories");
  X ← lift (drop_columns train "Calories");
  lr_score ← lift (rmsle_cv lr X y);
  rf_score ← lift (rmsle_cv rf X y);
  xgb_score ← lift (rmsle_cv xgb X y);
  lgb_score ← lift (rmsle_cv lgb X y);
  targets ← lift (floats_of y);
  let fitted := fit xgb X targets in
  let test_preds_log := predict fitted test in
  let test_preds := map nexpm1 test_preds_log in
  ids_file ← read_csv "datasets/test_ids.csv";
  test_ids ← lift (getitem ids_file "id");
  submission ← lift (frame_of_ids_and_array test_ids test_preds);
  to_csv submission "submission_xgb.csv".

End Baseline.

(** * Vocabulary of the properties *)

(** ** What the claims say, as predicates of the embedding *)

(** The blended value lies between the smaller and the larger input. *)
Definition blend_between {num : Type} `{!Arith num} (pred_A pred_B : num) : Prop :=
  nle (nmin pred_A pred_B) (blend pred_A pred_B)
  /\ nle (blend pred_A pred_B) (nmax pred_A pred_B).

(** A binary64 value, in the specification format of the standard library,
    that is neither NaN nor negative: a zero of either sign, a positive
    finite number or +infinity. *)
Definition nonneg_sf (x : spec_float) : bool :=
  match x with
  | S754_zero _ => true
  | S754_infinity s => negb s
  | S754_finite s _ _ => negb s
  | S754_nan => false
  end.

(** The weights are nonnegative and add up to one. *)
Definition convex_weights (num : Type) `{!Arith num} : Prop :=
  nle (nofZ 0) n0_7 /\ nle (nofZ 0) n0_3 /\ nadd n0_7 n0_3 = nofZ 1.

(** A value is not zero, as the language tests it ([x != 0]). *)
Definition nonzero {num : Type} `{!Arith num} (x : num) : Prop :=
  neqb x (nofZ 0) = false.

(** With a nonzero height and a nonzero duration neither division of the
    feature-engineering notebook has a zero divisor. *)
Definition no_zero_divisor {num : Type} `{!Arith num} (height duration : num) : Prop :=
  nonzero height -> nonzero duration ->
  nonzero (nsquare (ndiv height (nofZ 100))) /\ nonzero duration.

(** ** The notebooks as a pure computation followed by the writes *)

Definition open_csv {num : Type} (fs : FS num) (path : string) : result (DataFrame num) :=
  match fs !! path with
  | Some df => inr df
  | None => inl (FileNotFoundError path)
  end.

(** [0.7 * xgb_df['Calories'] + 0.3 * lgb_df['Calories']] *)
Definition blended_preds {num : Type} `{!Arith num} (xgb_df lgb_df : DataFrame num)
    : result (Series num) :=
  cal_xgb ← getitem xgb_df "Calories";
  weighted_xgb ← scalar_mul n0_7 cal_xgb;
  cal_lgb ← getitem lgb_df "Calories";
  weighted_lgb ← scalar_mul n0_3 cal_lgb;
  series_add weighted_xgb weighted_lgb.

(** The frame the blending notebook writes, or the exception that ends it. *)
Definition blended_submission {num : Type} `{!Arith num} (fs : FS num)
    : result (DataFrame num) :=
  xgb_df ← open_csv fs xgb_file;
  lgb_df ← open_csv fs lgb_file;
  ids_xgb ← getitem xgb_df "id";
  ids_lgb ← getitem lgb_df "id";
  same ← series_eq ids_xgb ids_lgb;
  if all same then
    preds ← blended_preds xgb_df lgb_df;
    mret [("id"%string, ids_xgb); ("Calories"%string, preds)]
  else raise (AssertionError "IDs do not match between the two submission files.").

(** ** The blending notebook's assertion, as C4 states it *)

Definition assertion_failure {A : Type} (r : result A) : Prop :=
  exists msg, r = inl (AssertionError msg).

(** The two id columns differ at some position. *)
Definition ids_differ (ids_A ids_B : list Z) : Prop :=
  exists i, ids_A !! i <> ids_B !! i.

(** The file at [path] has the integer id column [ids]. *)
Definition id_column {num : Type} (fs : FS num) (path : string) (ids : list Z) : Prop :=
  exists df, fs !! path = Some df /\ getitem df "id" = inr (SInt ids).

Definition fails_iff_ids_differ {num : Type} `{!Arith num} (fs : FS num) : Prop :=
  forall ids_A ids_B : list Z,
    id_column fs xgb_file ids_A ->
    id_column fs lgb_file ids_B ->
    (assertion_failure (blended_xgb70_lgb30 fs).1 <-> ids_differ ids_A ids_B).

(** ** One-hot encoding of Sex, as C6 states it *)


(** ** The columns the feature-engineering notebook reads and adds *)

(** The frame has the five float columns the notebook reads, each with the
    same number of rows, and none of the four labels it adds. *)
Definition session_columns {num : Type} `{!Arith num} (df : DataFrame num)
    (weight height duration heart_rate body_temp : list num) : Prop :=
  getitem df "Weight" = inr (SFloat weight)
  /\ getitem df "Height" = inr (SFloat height)
  /\ getitem df "Duration" = inr (SFloat duration)
  /\ getitem df "Heart_Rate" = inr (SFloat heart_rate)
  /\ getitem df "Body_Temp" = inr (SFloat body_temp)
  /\ length height = length weight
  /\ length duration = length weight
  /\ length heart_rate = length weight
  /\ length body_temp = length weight
  /\ Forall (fun l => l ∉ labels df)
            ["BMI"; "Intensity"; "TempHeart"; "Duration2"]%string.

Definition derived_columns {num : Type} `{!Arith num}
    (weight height duration heart_rate body_temp : list num) : DataFrame num :=
  [("BMI"%string, SFloat (zip_with BMI weight height));
   ("Intensity"%string, SFloat (zip_with Intensity heart_rate duration));
   ("TempHeart"%string, SFloat (zip_with TempHeart body_temp heart_rate));
   ("Duration2"%string, SFloat (map Duration2 duration))].

(** ** Cross-validated scoring, in the words of the specification *)

Section SpecScore.
Context {num : Type} `{!Arith num} `{!Analytic num}.



(** The other reading, which the code does not implement: the average of the
    per-fold square roots. *)
Definition mean_of_root_msle (scores : list num) : num :=
  nmean (map nsqrt scores).

End SpecScore.

(** ** Preprocessing: what both data sets go through *)

(** Drop the id column, then one-hot encode Sex. *)
Definition prepare_features {num : Type} `{!Arith num} (df : DataFrame num)
    : result (DataFrame num) :=
  df ← drop_columns df "id";
  get_dummies df "Sex".

(** * Example data *)

(** Two prediction files over the same three rows. *)
Definition two_predictions : FS float :=
  <[xgb_file := [("id"%string, SInt [750000; 750001; 750002]%Z);
                 ("Calories"%string, SFloat [3; 10.5; 150]%float)]]>
  (<[lgb_file := [("id"%string, SInt [750000; 750001; 750002]%Z);
                  ("Calories"%string, SFloat [3; 11.5; 149]%float)]]> ∅).

(** Two prediction files of different length. *)
Definition short_lgb_file : FS float :=
  <[xgb_file := [("id"%string, SInt [750000; 750001]%Z);
                 ("Calories"%string, SFloat [3; 10.5]%float)]]>
  (<[lgb_file := [("id"%string, SInt [750000]%Z);
                  ("Calories"%string, SFloat [3]%float)]]> ∅).

(** Two sessions with the columns the feature-engineering notebook reads,
    in exact arithmetic. *)
Definition sessions_exact : DataFrame xreal :=
  [("Weight"%string, SFloat [Some 82; Some 60]%R);
   ("Height"%string, SFloat [Some 189; Some 163]%R);
   ("Heart_Rate"%string, SFloat [Some 101; Some 85]%R);
   ("Duration"%string, SFloat [Some 26; Some 8]%R)].

(** Two prediction files of one length whose second ids differ. *)
Definition mismatched_ids : FS float :=
  <[xgb_file := [("id"%string, SInt [750000; 750001]%Z);
                 ("Calories"%string, SFloat [3; 10.5]%float)]]>
  (<[lgb_file := [("id"%string, SInt [750000; 750009]%Z);
                  ("Calories"%string, SFloat [3; 11.5]%float)]]> ∅).

(** A data set whose sessions are all by men. *)
Definition only_men : DataFrame float :=
  [("Sex"%string, SStr ["male"; "male"]%string);
   ("Age"%string, SInt [36; 20]%Z)].


(** The preprocessed files of a train set of two sessions and a test set of
    one. *)
Definition preprocessed_files : FS float :=
  <["datasets/train_preprocessed.csv"%string :=
      [("Age"%string, SInt [36; 64]%Z);
       ("Height"%string, SFloat [189; 163]%float);
       ("Weight"%string, SFloat [82; 60]%float);
       ("Duration"%string, SFloat [26; 8]%float);
       ("Heart_Rate"%string, SFloat [101; 85]%float);
       ("Body_Temp"%string, SFloat [41; 39.7]%float);
       ("Calories"%string, SFloat [5.01728; 3.555348]%float);
       ("Sex_male"%string, SBool [true; false])]]>
  (<["datasets/test_preprocessed.csv"%string :=
      [("Age"%string, SInt [51]%Z);
       ("Height"%string, SFloat [161]%float);
       ("Weight"%string, SFloat [64]%float);
       ("Duration"%string, SFloat [7]%float);
       ("Heart_Rate"%string, SFloat [84]%float);
       ("Body_Temp"%string, SFloat [39.8]%float);
       ("Sex_male"%string, SBool [false])]]> ∅).

(** A regressor that predicts 4 whatever it is trained on, and five training
    sessions with their targets. *)
Definition constant_model : Estimator xreal := {| fit := fun _ _ _ => Some 4%R |}.

Definition five_sessions : DataFrame xreal :=
  [("Duration"%string, SFloat [Some 26; Some 8; Some 7; Some 25; Some 25]%R);
   ("Sex_male"%string, SBool [true; false; false; true; false])].

Definition five_targets : list R := [5; 3.5; 3.4; 4.9; 5]%R.

(** Raw files: six training sessions and two test sessions. *)
Definition raw_files : FS xreal :=
  <["datasets/train.csv"%string :=
      [("id"%string, SInt [0; 1; 2; 3; 4; 5]%Z);
       ("Sex"%string, SStr ["male"; "female"; "female"; "male"; "female"; "male"]%string);
       ("Age"%string, SInt [36; 64; 51; 20; 38; 26]%Z);
       ("Duration"%string, SFloat [Some 26; Some 8; Some 7; Some 25; Some 25; Some 16]%R);
       ("Calories"%string, SFloat [Some 150; Some 34; Some 29; Some 140; Some 146; Some 103]%R)]]>
  (<["datasets/test.csv"%string :=
      [("id"%string, SInt [750000; 750001]%Z);
       ("Sex"%string, SStr ["female"; "male"]%string);
       ("Age"%string, SInt [45; 26]%Z);
       ("Duration"%string, SFloat [Some 7; Some 20]%R)]]> ∅).

(** Preprocessed files in which one test session has a height of 1e-160. *)
Definition tiny_height_files : FS float :=
  <["datasets/test_preprocessed.csv"%string :=
      [("Height"%string, SFloat [1e-160]%float);
       ("Weight"%string, SFloat [82]%float);
       ("Duration"%string, SFloat [26]%float);
       ("Heart_Rate"%string, SFloat [101]%float);
       ("Body_Temp"%string, SFloat [41]%float)]]> preprocessed_files.

(** Raw files whose test sessions are all by men. *)
Definition only_men_in_test : FS xreal :=
  <["datasets/test.csv"%string :=
      [("id"%string, SInt [750000; 750001]%Z);
       ("Sex"%string, SStr ["male"; "male"]%string);
       ("Age"%string, SInt [45; 26]%Z);
       ("Duration"%string, SFloat [Some 7; Some 20]%R)]]> raw_files.

(** * The other notebooks as a pure computation followed by the writes *)

(** The three frames the preprocessing notebook writes (train, test, test
    ids), or the exception that ends it. *)
Definition preprocessed {num : Type} `{!Arith num} `{!Analytic num} (fs : FS num)
    : result (DataFrame num * DataFrame num * Series num) :=
  train ← open_csv fs "datasets/train.csv";
  test ← open_csv fs "datasets/test.csv";
  test_ids ← getitem test "id";
  train ← drop_columns train "id";
  test ← drop_columns test "id";
  train ← get_dummies train "Sex";
  test ← get_dummies test "Sex";
  calories ← getitem train "Calories";
  log_calories ← series_log1p calories;
  mret (setitem train "Calories" log_calories, test, test_ids).

Definition preprocessing_files {num : Type}
    (out : DataFrame num * DataFrame num * Series num) (fs : FS num) : FS num :=
  <["datasets/test_ids.csv"%string := [("id"%string, out.2)]]>
    (<["datasets/test_preprocessed.csv"%string := out.1.2]>
       (<["datasets/train_preprocessed.csv"%string := out.1.1]> fs)).

(** The two frames the feature-engineering notebook writes, or the exception
    that ends it; train and test take turns, as in the cells. *)
Definition engineered {num : Type} `{!Arith num} (fs : FS num)
    : result (DataFrame num * DataFrame num) :=
  train ← open_csv fs "datasets/train_preprocessed.csv";
  test ← open_csv fs "datasets/test_preprocessed.csv";
  train ← add_BMI train;
  test ← add_BMI test;
  train ← add_Intensity train;
  test ← add_Intensity test;
  train ← add_TempHeart train;
  test ← add_TempHeart test;
  train ← add_Duration2 train;
  test ← add_Duration2 test;
  mret (train, test).

Definition engineering_files {num : Type} (out : DataFrame num * DataFrame num)
    (fs : FS num) : FS num :=
  <["datasets/test_fe.csv"%string := out.2]>
    (<["datasets/train_fe.csv"%string := out.1]> fs).

(** The four assignments of the feature-engineering notebook on one frame. *)
Definition engineer {num : Type} `{!Arith num} (df : DataFrame num)
    : result (DataFrame num) :=
  df ← add_BMI df;
  df ← add_Intensity df;
  df ← add_TempHeart df;
  add_Duration2 df.

(** The frame the baseline notebook writes, or the exception that ends it. *)
Definition baseline_submission {num : Type} `{!Arith num} `{!Analytic num}
    (shuffle42 : nat -> list nat) (lr rf xgb lgb : Estimator num) (fs : FS num)
    : result (DataFrame num) :=
  train ← open_csv fs "datasets/train_preprocessed.csv";
  test ← open_csv fs "datasets/test_preprocessed.csv";
  y ← getitem train "Calories";
  X ← drop_columns train "Calories";
  lr_score ← rmsle_cv shuffle42 lr X y;
  rf_score ← rmsle_cv shuffle42 rf X y;
  xgb_score ← rmsle_cv shuffle42 xgb X y;
  lgb_score ← rmsle_cv shuffle42 lgb X y;
  targets ← floats_of y;
  ids_file ← open_csv fs "datasets/test_ids.csv";
  test_ids ← getitem ids_file "id";
  frame_of_ids_and_array test_ids
    (map nexpm1 (predict (fit xgb X targets) test)).

(** ** What the further properties say *)

(** Every session is by a woman or a man, and both occur. *)
Definition both_sexes (ss : list string) : Prop :=
  Forall (fun s => s = "female"%string \/ s = "male"%string) ss
  /\ ("female"%string ∈ ss) /\ ("male"%string ∈ ss).

(** The feature columns: every label but the target's. *)
Definition feature_labels {num : Type} `{!Arith num} (df : DataFrame num) : list string :=
  filter (fun l => l <> "Calories"%string) (labels df).

(** A finite number that is not negative. *)
Definition finite_nonneg (x : xreal) : Prop :=
  exists v : R, x = Some v /\ (0 <= v)%R.


(** ** Further example data *)

(** Three sessions as the raw files give them, with their ids. *)
Definition tagged_sessions : DataFrame xreal :=
  [("id"%string, SInt [0; 1; 2]%Z);
   ("Sex"%string, SStr ["male"; "female"; "male"]%string);
   ("Age"%string, SInt [36; 64; 20]%Z)].

(** Raw files with every column of the competition's data: two training
    sessions and two test sessions. *)
Definition competition_sample : FS xreal :=
  <["datasets/train.csv"%string :=
      [("id"%string, SInt [0; 1]%Z);
       ("Sex"%string, SStr ["male"; "female"]%string);
       ("Age"%string, SInt [36; 64]%Z);
       ("Height"%string, SFloat [Some 189; Some 163]%R);
       ("Weight"%string, SFloat [Some 82; Some 60]%R);
       ("Duration"%string, SFloat [Some 26; Some 8]%R);
       ("Heart_Rate"%string, SFloat [Some 101; Some 85]%R);
       ("Body_Temp"%string, SFloat [Some 41; Some 39.7]%R);
       ("Calories"%string, SFloat [Some 150; Some 34]%R)]]>
  (<["datasets/test.csv"%string :=
      [("id"%string, SInt [750000; 750001]%Z);
       ("Sex"%string, SStr ["female"; "male"]%string);
       ("Age"%string, SInt [45; 26]%Z);
       ("Height"%string, SFloat [Some 177; Some 200]%R);
       ("Weight"%string, SFloat [Some 81; Some 97]%R);
       ("Duration"%string, SFloat [Some 7; Some 20]%R);
       ("Heart_Rate"%string, SFloat [Some 87; Some 101]%R);
       ("Body_Temp"%string, SFloat [Some 39.8; Some 40.5]%R)]]> ∅).

(** * Tactics *)

(** Case analysis along the steps of a notebook. *)
Ltac run_cases :=
  repeat (case_match; unfold lift, mret, M_ret, raise in *; simplify_eq; try reflexivity).


(** * Properties *)

(** ** Exact arithmetic: evaluation lemmas *)

Lemma xleb_le (x y : R) : xleb (Some x) (Some y) = true <-> (x <= y)%R.
Proof.
  unfold xleb. destruct (Rle_dec x y); split; intros; try easy.
Qed.

Lemma xeqb_false (x y : R) : xeqb (Some x) (Some y) = false <-> x <> y.
Proof.
  unfold xeqb. destruct (Req_dec_T x y); split; intros; try easy.
Qed.

Lemma xdiv_defined (x y : R) : y <> 0%R -> xdiv (Some x) (Some y) = Some (x / y)%R.
Proof.
  intros Hy. unfold xdiv. destruct (Req_dec_T y 0); [contradiction | reflexivity].
Qed.

Lemma xdiv_by_zero (x : R) : xdiv (Some x) (Some 0%R) = None.
Proof.
  unfold xdiv. destruct (Req_dec_T 0 0); [reflexivity | contradiction].
Qed.

Lemma blend_exact (a b : R) :
  blend (num := xreal) (Some a) (Some b) = Some (0.7 * a + 0.3 * b)%R.
Proof. reflexivity. Qed.

Lemma BMI_exact (w h : R) :
  h <> 0%R ->
  BMI (num := xreal) (Some w) (Some h) = Some (w / (h / 100 * (h / 100)))%R.
Proof.
  intros Hh. unfold BMI, nsquare.
  change (xdiv (Some w) (xlift2 Rmult (xdiv (Some h) (Some 100%R)) (xdiv (Some h) (Some 100%R)))
          = Some (w / (h / 100 * (h / 100)))%R).
  rewrite xdiv_defined by lra. unfold xlift2.
  rewrite xdiv_defined; [reflexivity |].
  intros H0. apply Rmult_integral in H0. lra.
Qed.

Lemma Intensity_exact (hr d : R) :
  d <> 0%R -> Intensity (num := xreal) (Some hr) (Some d) = Some (hr / d)%R.
Proof. intros Hd. unfold Intensity. now apply xdiv_defined. Qed.


(** ** binary64: signs through rounding *)

Lemma leb_zero_nonneg (x : float) : PrimFloat.leb 0 x = nonneg_sf (Prim2SF x).
Proof.
  rewrite FloatAxioms.leb_spec.
  change (Prim2SF 0) with (S754_zero false).
  destruct (Prim2SF x) as [s | s | | s m e]; try destruct s; reflexivity.
Qed.

Lemma shr_1_nonneg (mrs : shr_record) : (0 <= shr_m mrs)%Z -> (0 <= shr_m (shr_1 mrs))%Z.
Proof.
  destruct mrs as [m r s]. cbn [shr_m]. intros Hm. unfold shr_1.
  destruct m as [| p | p]; [cbn; lia | | lia].
  destruct p; cbn; lia.
Qed.

Lemma iter_shr_1_nonneg (p : positive) (mrs : shr_record) :
  (0 <= shr_m mrs)%Z -> (0 <= shr_m (SpecFloat.iter_pos shr_1 p mrs))%Z.
Proof.
  revert mrs. induction p as [p IH | p IH |]; intros mrs Hm; cbn [SpecFloat.iter_pos].
  - apply IH, IH. now apply shr_1_nonneg.
  - now apply IH, IH.
  - now apply shr_1_nonneg.
Qed.

Lemma shr_fexp_nonneg (m e : Z) (l : location) :
  (0 <= m)%Z -> (0 <= shr_m (shr_fexp prec emax m e l).1)%Z.
Proof.
  intros Hm. unfold shr_fexp, shr.
  assert (0 <= shr_m (shr_record_of_loc m l))%Z as Hrec.
  { destruct l as [| []]; exact Hm. }
  destruct (fexp prec emax (Zdigits2 m + e) - e)%Z; cbn [fst]; [assumption | | assumption].
  now apply iter_shr_1_nonneg.
Qed.

Lemma round_nearest_even_nonneg (m : Z) (l : location) :
  (0 <= m)%Z -> (0 <= round_nearest_even m l)%Z.
Proof.
  intros Hm. destruct l as [| []]; cbn; try assumption; [| lia].
  destruct (Z.even m); lia.
Qed.

(** Rounding a nonnegative mantissa with sign + gives no NaN and nothing
    negative. *)
Lemma binary_round_aux_nonneg (m e : Z) (l : location) :
  (0 <= m)%Z -> nonneg_sf (binary_round_aux prec emax false m e l) = true.
Proof.
  intros Hm. unfold binary_round_aux.
  pose proof (shr_fexp_nonneg m e l Hm) as H1.
  destruct (shr_fexp prec emax m e l) as [mrs' e'] eqn:Hshr. cbn [fst] in H1.
  pose proof (shr_fexp_nonneg (round_nearest_even (shr_m mrs') (loc_of_shr_record mrs'))
                e' loc_Exact (round_nearest_even_nonneg _ _ H1)) as H2.
  destruct (shr_fexp prec emax (round_nearest_even (shr_m mrs') (loc_of_shr_record mrs'))
              e' loc_Exact) as [mrs'' e''].
  cbn [fst] in H2.
  destruct (shr_m mrs'') as [| p | p]; [reflexivity | | lia].
  destruct (e'' <=? emax - prec)%Z; reflexivity.
Qed.

Lemma SFmul_nonneg (m : positive) (e : Z) (y : spec_float) :
  nonneg_sf y = true -> nonneg_sf (SF64mul (S754_finite false m e) y) = true.
Proof.
  destruct y as [s | s | | s my ey]; cbn; try easy.
  destruct s; [discriminate |]. intros _.
  now apply binary_round_aux_nonneg.
Qed.

Lemma SFadd_nonneg (x y : spec_float) :
  nonneg_sf x = true -> nonneg_sf y = true -> nonneg_sf (SF64add x y) = true.
Proof.
  destruct x as [sx | sx | | sx mx ex], y as [sy | sy | | sy my ey];
    try destruct sx; try destruct sy; cbn; try easy.
  intros _ _. unfold binary_normalize, cond_Zopp.
  destruct (Z.pos (shl_align mx ex (Z.min ex ey)).1 + Z.pos (shl_align my ey (Z.min ex ey)).1)%Z
    as [| p | p] eqn:Hsum; [reflexivity | | lia].
  unfold binary_round.
  destruct (shl_align p (Z.min ex ey) _) as [mz ez].
  now apply binary_round_aux_nonneg.
Qed.

(** In binary64 too, two nonnegative predictions blend to a nonnegative
    one: both products and their sum are rounded without a change of sign. *)
Lemma blend_nonneg_binary64 (a b : float) :
  nle (nofZ 0) a -> nle (nofZ 0) b -> nle (nofZ 0) (blend a b).
Proof.
  unfold nle. cbn [nleb binary64 nofZ].
  change (float_of_Z 0) with 0%float.
  rewrite !leb_zero_nonneg. intros Ha Hb.
  unfold blend. cbn [nadd nmul n0_7 n0_3 binary64].
  rewrite FloatAxioms.add_spec, !FloatAxioms.mul_spec.
  apply SFadd_nonneg.
  - change (Prim2SF 0.7) with (S754_finite false 6305039478318694 (-53)).
    now apply SFmul_nonneg.
  - change (Prim2SF 0.3) with (S754_finite false 5404319552844595 (-54)).
    now apply SFmul_nonneg.
Qed.

(** ** Lists, series and frames *)

Lemma zip_with_fmap_where {A B C D E : Type} (f : C -> D -> E) (g : A -> C)
    (h : B -> D) (k : A -> B -> E) (P : B -> Prop) (xs : list A) (ys : list B) :
  Forall P ys ->
  (forall x y, P y -> f (g x) (h y) = k x y) ->
  zip_with f (map g xs) (map h ys) = zip_with k xs ys.
Proof.
  intros HP Hk. revert xs.
  induction HP as [| y ys Hy _ IH]; intros [| x xs]; simpl; try reflexivity.
  now rewrite Hk, IH.
Qed.

Section FrameFacts.
Context {num : Type} `{!Arith num}.

Lemma pad_full (n : nat) (xs : list num) : n <= length xs -> pad n xs = xs.
Proof.
  intros Hn. unfold pad.
  replace (n - length xs) with 0 by lia. apply app_nil_r.
Qed.

(** Two columns of one frame have one length: nothing is padded. *)
Lemma align_same_length (f : num -> num -> num) (xs ys : list num) :
  length xs = length ys -> align f xs ys = zip_with f xs ys.
Proof.
  intros Hlen. unfold align.
  rewrite !pad_full by lia. reflexivity.
Qed.

Lemma add_BMI_floats (df : DataFrame num) (ws hs : list num) :
  getitem df "Weight" = inr (SFloat ws) ->
  getitem df "Height" = inr (SFloat hs) ->
  length ws = length hs ->
  add_BMI df = inr (setitem df "BMI" (SFloat (zip_with BMI ws hs))).
Proof.
  intros Hw Hh Hlen. unfold add_BMI. rewrite Hw, Hh. cbn.
  rewrite align_same_length by (now rewrite !length_map).
  rewrite zip_with_fmap_r, zip_with_fmap_r. reflexivity.
Qed.

Lemma add_Intensity_floats (df : DataFrame num) (hrs ds : list num) :
  getitem df "Heart_Rate" = inr (SFloat hrs) ->
  getitem df "Duration" = inr (SFloat ds) ->
  length hrs = length ds ->
  add_Intensity df = inr (setitem df "Intensity" (SFloat (zip_with Intensity hrs ds))).
Proof.
  intros Hhr Hd Hlen. unfold add_Intensity. rewrite Hhr, Hd. cbn.
  now rewrite align_same_length.
Qed.

Lemma add_TempHeart_floats (df : DataFrame num) (bts hrs : list num) :
  getitem df "Body_Temp" = inr (SFloat bts) ->
  getitem df "Heart_Rate" = inr (SFloat hrs) ->
  length bts = length hrs ->
  add_TempHeart df = inr (setitem df "TempHeart" (SFloat (zip_with TempHeart bts hrs))).
Proof.
  intros Hbt Hhr Hlen. unfold add_TempHeart. rewrite Hbt, Hhr. cbn.
  now rewrite align_same_length.
Qed.

Lemma add_Duration2_floats (df : DataFrame num) (ds : list num) :
  getitem df "Duration" = inr (SFloat ds) ->
  add_Duration2 df = inr (setitem df "Duration2" (SFloat (map Duration2 ds))).
Proof. intros Hd. unfold add_Duration2. now rewrite Hd. Qed.

End FrameFacts.

(** ** Frames: columns by label *)

Section LabelFacts.
Context {num : Type} `{!Arith num}.


Lemma getitem_app_l (df df' : DataFrame num) (key : string) (s : Series num) :
  getitem df key = inr s -> getitem (df ++ df') key = inr s.
Proof.
  induction df as [| [l c] df IH]; simpl; [discriminate |].
  destruct (String.eqb l key); auto.
Qed.

Lemma getitem_absent (df : DataFrame num) (key : string) :
  key ∉ labels df -> getitem df key = inl (KeyError key).
Proof.
  induction df as [| [l c] df IH]; simpl; [reflexivity |].
  intros Hfresh. apply not_elem_of_cons in Hfresh as [Hne Hfresh].
  destruct (String.eqb_spec l key); [congruence | auto].
Qed.

Lemma getitem_present (df : DataFrame num) (key : string) (s : Series num) :
  getitem df key = inr s -> key ∈ labels df.
Proof.
  induction df as [| [l c] df IH]; simpl; [discriminate |].
  destruct (String.eqb_spec l key) as [-> | Hne]; intros Hs.
  - apply list_elem_of_here.
  - apply list_elem_of_further. auto.
Qed.

Lemma labels_app (df df' : DataFrame num) : labels (df ++ df') = labels df ++ labels df'.
Proof. apply map_app. Qed.

End LabelFacts.

(** ** Frames: dropping, encoding and assigning columns *)

Section PrepFacts.
Context {num : Type} `{!Arith num}.

Lemma labels_filter_ne (df : DataFrame num) (key l : string) :
  l ∈ labels (filter (fun c => c.1 <> key) df) <-> l <> key /\ l ∈ labels df.
Proof.
  unfold labels. rewrite !list_elem_of_fmap. split.
  - intros (c & -> & Hc). apply list_elem_of_filter in Hc as [Hne Hc].
    split; [exact Hne |]. now exists c.
  - intros (Hne & c & -> & Hc). exists c. split; [reflexivity |].
    now apply list_elem_of_filter.
Qed.

Lemma getitem_filter_ne (df : DataFrame num) (key l : string) :
  l <> key -> getitem (filter (fun c => c.1 <> key) df) l = getitem df l.
Proof.
  intros Hne. induction df as [| [l' s] df IH]; [reflexivity |].
  rewrite filter_cons. cbn [fst]. destruct (decide (l' <> key)) as [Hk | Hk]; cbn.
  - now rewrite IH.
  - destruct (String.eqb_spec l' l) as [-> | _]; [| exact IH].
    exfalso. apply Hk. exact Hne.
Qed.

Lemma drop_columns_inv (df df' : DataFrame num) (key : string) :
  drop_columns df key = inr df' -> df' = filter (fun c => c.1 <> key) df.
Proof.
  unfold drop_columns. case_bool_decide; [| discriminate]. now intros [= <-].
Qed.

Lemma get_dummies_inv (df df' : DataFrame num) (key : string) :
  get_dummies df key = inr df' ->
  exists ss, getitem df key = inr (SStr ss)
             /\ df' = filter (fun c => c.1 <> key) df ++ dummy_columns key ss.
Proof.
  unfold get_dummies. destruct (getitem df key) as [e | s]; [discriminate |].
  cbn. destruct s; try discriminate. intros [= <-]. eauto.
Qed.

Lemma dummy_labels (ss : list string) (l : string) :
  l ∈ labels (dummy_columns (num := num) "Sex" ss) ->
  exists c, l = String.append "Sex_" c.
Proof.
  unfold dummy_columns, labels. rewrite <- list_fmap_compose.
  intros (c & -> & _)%list_elem_of_fmap. now exists c.
Qed.

Lemma getitem_app_fresh (df ext : DataFrame num) (key : string) :
  key ∉ labels ext -> getitem (df ++ ext) key = getitem df key.
Proof.
  intros Hfresh. induction df as [| [l s] df IH]; simpl.
  - now apply getitem_absent.
  - destruct (String.eqb l key); auto.
Qed.

Lemma getitem_setitem (df : DataFrame num) (key : string) (s : Series num) :
  getitem (setitem df key s) key = inr s.
Proof.
  induction df as [| [l c] df IH]; simpl.
  - now rewrite String.eqb_refl.
  - destruct (String.eqb l key) eqn:Hl; simpl; rewrite Hl; auto.
Qed.

Lemma getitem_setitem_ne (df : DataFrame num) (key l : string) (s : Series num) :
  l <> key -> getitem (setitem df key s) l = getitem df l.
Proof.
  intros Hne. induction df as [| [l' c] df IH]; simpl.
  - destruct (String.eqb_spec key l); [congruence | reflexivity].
  - destruct (String.eqb_spec l' key) as [-> | Hk]; simpl.
    + destruct (String.eqb_spec key l); [congruence | reflexivity].
    + destruct (String.eqb l' l); auto.
Qed.

Lemma labels_setitem (df : DataFrame num) (key l : string) (s : Series num) :
  l ∈ labels (setitem df key s) <-> l = key \/ l ∈ labels df.
Proof.
  induction df as [| [l' c] df IH]; simpl.
  - rewrite elem_of_cons. split; [tauto | intros [? | H]; [auto | inversion H]].
  - destruct (String.eqb_spec l' key) as [-> | Hk]; simpl; rewrite !elem_of_cons.
    + tauto.
    + rewrite IH. tauto.
Qed.

End PrepFacts.

(** ** Stepping through a notebook *)

Section Steps.
Context {num : Type}.

Lemma bind_read {A : Type} (path : string) (k : DataFrame num -> M num A)
    (fs : FS num) (df : DataFrame num) :
  fs !! path = Some df -> (read_csv path ≫= k) fs = k df fs.
Proof. intros Hdf. unfold mbind, M_bind, read_csv. now rewrite Hdf. Qed.

Lemma bind_lift {A B : Type} (r : result A) (k : A -> M num B) (fs : FS num) (x : A) :
  r = inr x -> (lift r ≫= k) fs = k x fs.
Proof. intros ->. reflexivity. Qed.

Lemma bind_to_csv {A : Type} (df : DataFrame num) (path : string)
    (k : unit -> M num A) (fs : FS num) :
  (to_csv df path ≫= k) fs = k tt (<[path := df]> fs).
Proof. reflexivity. Qed.

(** What a run returns when one of its steps does. *)
Lemma bind_inv {A B : Type} (m : M num A) (k : A -> M num B) (fs fs' : FS num) (y : B) :
  (m ≫= k) fs = (inr y, fs') ->
  exists x fs1, m fs = (inr x, fs1) /\ k x fs1 = (inr y, fs').
Proof.
  unfold mbind, M_bind. destruct (m fs) as [[e | x] fs1]; [discriminate |].
  intros Hk. now exists x, fs1.
Qed.

Lemma read_csv_inv (path : string) (fs fs' : FS num) (df : DataFrame num) :
  read_csv path fs = (inr df, fs') -> fs !! path = Some df /\ fs' = fs.
Proof.
  unfold read_csv. destruct (fs !! path); intros [= -> ->]; auto.
Qed.

Lemma lift_inv {A : Type} (r : result A) (fs fs' : FS num) (x : A) :
  lift r fs = (inr x, fs') -> r = inr x /\ fs' = fs.
Proof. unfold lift. intros [= -> ->]. auto. Qed.

End Steps.

(** ** The blending notebook *)

Section BlendingFacts.
Context {num : Type} `{!Arith num}.

(** Nothing is written before the last statement, so an exception leaves the
    files as they were. *)
Lemma blended_run (fs : FS num) :
  blended_xgb70_lgb30 fs =
  match blended_submission fs with
  | inl e => (inl e, fs)
  | inr submission => (inr tt, <[output_path := submission]> fs)
  end.
Proof.
  unfold blended_xgb70_lgb30, blended_submission, blended_preds, open_csv.
  unfold mbind, M_bind, result_bind, read_csv, assert, to_csv, result_ret.
  run_cases.
Qed.

Lemma getitem_error (df : DataFrame num) (key : string) (e : error) :
  getitem df key = inl e -> e = KeyError key.
Proof.
  induction df as [| [l s] df IH]; simpl.
  - intros [= <-]. reflexivity.
  - destruct (String.eqb l key); [discriminate | exact IH].
Qed.

Lemma floats_of_error (s : Series num) (e : error) :
  floats_of s = inl e -> e = TypeError \/ e = Unmodelled.
Proof. destruct s; simpl; intros [= <-]; auto. Qed.

Lemma blended_preds_error (xgb_df lgb_df : DataFrame num) (e : error) :
  blended_preds xgb_df lgb_df = inl e ->
  e = KeyError "Calories" \/ e = TypeError \/ e = Unmodelled.
Proof.
  unfold blended_preds, scalar_mul, series_add, series_arith.
  unfold mbind, result_bind, mret, result_ret.
  intros Hrun.
  repeat (case_match; simplify_eq);
    repeat match goal with
           | H : getitem _ _ = inl _ |- _ => apply getitem_error in H; subst
           | H : floats_of _ = inl _ |- _ => apply floats_of_error in H; destruct H; subst
           end; auto.
Qed.

(** On two float columns of one length the blended column is the weighted
    sum, row by row. *)
Lemma blended_preds_floats (xgb_df lgb_df : DataFrame num) (cal_A cal_B : Series num)
    (preds_A preds_B : list num) :
  getitem xgb_df "Calories" = inr cal_A ->
  floats_of cal_A = inr preds_A ->
  getitem lgb_df "Calories" = inr cal_B ->
  floats_of cal_B = inr preds_B ->
  length preds_A = length preds_B ->
  blended_preds xgb_df lgb_df = inr (SFloat (zip_with blend preds_A preds_B)).
Proof.
  intros HA HfA HB HfB Hlen. unfold blended_preds, scalar_mul.
  rewrite HA. cbn. rewrite HfA. cbn. rewrite HB. cbn. rewrite HfB. cbn.
  rewrite align_same_length by (now rewrite !length_map).
  now rewrite zip_with_fmap_l, zip_with_fmap_r.
Qed.

End BlendingFacts.

Lemma all_zip_Zeqb (ids_A ids_B : list Z) :
  all (zip_with Z.eqb ids_A ids_B) = false <->
  exists i a b, ids_A !! i = Some a /\ ids_B !! i = Some b /\ a <> b.
Proof.
  revert ids_B. induction ids_A as [| a ids_A IH]; intros [| b ids_B]; simpl.
  - split; [discriminate | intros (i & x & y & Hx & _); destruct i; discriminate].
  - split; [discriminate | intros (i & x & y & Hx & _); destruct i; discriminate].
  - split; [discriminate | intros (i & x & y & _ & Hy & _); destruct i; discriminate].
  - destruct (Z.eqb_spec a b) as [-> | Hne]; simpl.
    + rewrite IH. split.
      * intros (i & x & y & Hx & Hy & Hxy). now exists (S i), x, y.
      * intros ([| i] & x & y & Hx & Hy & Hxy); simpl in *.
        -- congruence.
        -- now exists i, x, y.
    + split; [intros _ | reflexivity]. now exists 0, a, b.
Qed.

(** ** The preprocessing notebook *)

Lemma prepare_features_inv {num : Type} `{!Arith num} (df df' : DataFrame num) :
  prepare_features df = inr df' ->
  exists ss,
    df' = filter (fun c => c.1 <> "Sex"%string) (filter (fun c => c.1 <> "id"%string) df)
            ++ dummy_columns "Sex" ss.
Proof.
  unfold prepare_features.
  destruct (drop_columns df "id") as [e | df1] eqn:Hdrop; [discriminate |].
  cbn. intros (ss & _ & ->)%get_dummies_inv.
  apply drop_columns_inv in Hdrop as ->. now exists ss.
Qed.

Lemma prepared_label {num : Type} `{!Arith num} (df df' : DataFrame num) (l : string) :
  prepare_features df = inr df' ->
  l ∈ labels df' ->
  (l <> "id"%string /\ l <> "Sex"%string /\ l ∈ labels df)
  \/ exists c, l = String.append "Sex_" c.
Proof.
  intros (ss & ->)%prepare_features_inv. rewrite labels_app.
  intros [Hl | Hl]%elem_of_app.
  - left. apply labels_filter_ne in Hl as [Hsex Hl].
    apply labels_filter_ne in Hl as [Hid Hl]. auto.
  - right. eapply dummy_labels. exact Hl.
Qed.

Lemma prepared_getitem {num : Type} `{!Arith num} (df df' : DataFrame num) (l : string)
    (s : Series num) :
  prepare_features df = inr df' ->
  l <> "id"%string -> l <> "Sex"%string ->
  getitem df l = inr s -> getitem df' l = inr s.
Proof.
  intros (ss & ->)%prepare_features_inv Hid Hsex Hs.
  apply getitem_app_l. now rewrite !getitem_filter_ne.
Qed.

Lemma prepared_getitem_eq {num : Type} `{!Arith num} (df df' : DataFrame num) (l : string) :
  prepare_features df = inr df' ->
  l <> "id"%string -> l <> "Sex"%string ->
  (forall c, l <> String.append "Sex_" c) ->
  getitem df' l = getitem df l.
Proof.
  intros (ss & ->)%prepare_features_inv Hid Hsex Hdummy.
  rewrite getitem_app_fresh.
  - now rewrite !getitem_filter_ne.
  - intros [c Hc]%dummy_labels. now apply (Hdummy c).
Qed.

(** What a completed run of the preprocessing notebook has read and
    written. *)
Lemma preprocessing_writes {num : Type} `{!Arith num} `{!Analytic num} (fs fs' : FS num) :
  preprocessing_step2 fs = (inr tt, fs') ->
  exists (train test train_features test_features : DataFrame num)
         (calories test_ids : Series num) (raw : list num),
    fs !! "datasets/train.csv"%string = Some train
    /\ fs !! "datasets/test.csv"%string = Some test
    /\ getitem test "id" = inr test_ids
    /\ prepare_features train = inr train_features
    /\ prepare_features test = inr test_features
    /\ getitem train "Calories" = inr calories
    /\ floats_of calories = inr raw
    /\ fs' = <["datasets/test_ids.csv"%string := [("id"%string, test_ids)]]>
               (<["datasets/test_preprocessed.csv"%string := test_features]>
                  (<["datasets/train_preprocessed.csv"%string :=
                       setitem train_features "Calories" (SFloat (map nlog1p raw))]> fs)).
Proof.
  intros Hrun. unfold preprocessing_step2 in Hrun.
  apply bind_inv in Hrun as (train & fs1 & [Htrain ->]%read_csv_inv & Hrun).
  apply bind_inv in Hrun as (test & fs1 & [Htest ->]%read_csv_inv & Hrun).
  apply bind_inv in Hrun as (test_ids & fs1 & [Hids ->]%lift_inv & Hrun).
  apply bind_inv in Hrun as (train1 & fs1 & [Hdrop ->]%lift_inv & Hrun).
  apply bind_inv in Hrun as (test1 & fs1 & [Hdrop' ->]%lift_inv & Hrun).
  apply bind_inv in Hrun as (train2 & fs1 & [Hdum ->]%lift_inv & Hrun).
  apply bind_inv in Hrun as (test2 & fs1 & [Hdum' ->]%lift_inv & Hrun).
  apply bind_inv in Hrun as (calories & fs1 & [Hcal ->]%lift_inv & Hrun).
  apply bind_inv in Hrun as (logcal & fs1 & [Hlog ->]%lift_inv & Hrun).
  rewrite !bind_to_csv in Hrun. unfold to_csv in Hrun. injection Hrun as <-.
  assert (prepare_features train = inr train2) as Hprep.
  { unfold prepare_features. now rewrite Hdrop. }
  assert (prepare_features test = inr test2) as Hprep'.
  { unfold prepare_features. now rewrite Hdrop'. }
  unfold series_log1p in Hlog.
  destruct (floats_of calories) as [e | raw] eqn:Hraw; [discriminate |].
  injection Hlog as <-.
  exists train, test, train2, test2, calories, test_ids, raw.
  repeat split; try assumption.
  rewrite <- Hcal. symmetry.
  apply (prepared_getitem_eq _ _ _ Hprep); discriminate.
Qed.

(** ** The baseline notebook *)


(** ** C1: cross-validated scoring *)

Lemma length_slices (sizes indices : list nat) :
  length (slices sizes indices) = length sizes.
Proof.
  revert indices. induction sizes as [| s sizes IH]; intros indices; simpl; auto.
Qed.

(** Slices whose sizes add up to the number of indices cut the list without
    loss or overlap. *)
Lemma concat_slices (sizes indices : list nat) :
  sum_list sizes = length indices -> concat (slices sizes indices) = indices.
Proof.
  revert indices. induction sizes as [| s sizes IH]; intros indices Hsum; simpl in *.
  - symmetry in Hsum. now apply nil_length_inv in Hsum.
  - rewrite IH by (rewrite length_drop; lia). apply take_drop.
Qed.

Lemma slices_sizes (sizes indices : list nat) :
  sum_list sizes = length indices ->
  Forall2 (fun fold size => length fold = size) (slices sizes indices) sizes.
Proof.
  revert indices. induction sizes as [| s sizes IH]; intros indices Hsum;
    simpl in *; constructor.
  - rewrite length_take. lia.
  - apply IH. rewrite length_drop. lia.
Qed.

Lemma sum_fold_sizes_5 (n : nat) : sum_list (fold_sizes n 5) = n.
Proof.
  unfold fold_sizes. cbn [seq map sum_list].
  pose proof (Nat.div_mod_eq n 5) as Hdiv.
  pose proof (Nat.mod_upper_bound n 5 ltac:(lia)) as Hlt.
  generalize dependent (n / 5). intros q Hdiv.
  destruct (n mod 5) as [| [| [| [| [| r]]]]]; simpl; lia.
Qed.

Lemma fold_sizes_5_each (n : nat) :
  Forall (fun size => size = n / 5 \/ size = n / 5 + 1) (fold_sizes n 5).
Proof.
  unfold fold_sizes. apply Forall_fmap, Forall_forall. intros j _.
  unfold compose. cbv beta. destruct (j <? n mod 5); lia.
Qed.

Lemma xneg_involutive (x : xreal) : nneg (nneg x) = x.
Proof. destruct x as [x |]; cbn; [f_equal; lra | reflexivity]. Qed.



Lemma xsqrt_nonneg (x : R) : (0 <= x)%R -> nsqrt (Some x) = Some (R_sqrt.sqrt x).
Proof.
  intros Hx. cbn. destruct (Rle_dec 0 x); [reflexivity | contradiction].
Qed.

(** The order matters: for the scores 0, 0, 0, 0, 5 the root of the mean is 1
    and the mean of the roots is not. *)
Lemma root_of_mean_is_not_mean_of_roots :
  nsqrt (nmean [Some 0; Some 0; Some 0; Some 0; Some 5]%R) = Some 1%R
  /\ mean_of_root_msle [Some 0; Some 0; Some 0; Some 0; Some 5]%R <> Some 1%R.
Proof.
  split.
  - unfold nmean, nsum. cbn [foldl length Z.of_nat].
    change (nsqrt (xdiv (Some (0 + 0 + 0 + 0 + 0 + 5)%R) (Some 5%R)) = Some 1%R).
    rewrite xdiv_defined by lra. rewrite xsqrt_nonneg by lra.
    f_equal. replace ((0 + 0 + 0 + 0 + 0 + 5) / 5)%R with 1%R by lra. apply sqrt_1.
  - unfold mean_of_root_msle. cbn [map].
    rewrite !xsqrt_nonneg by lra. rewrite sqrt_0.
    unfold nmean, nsum. cbn [foldl length Z.of_nat].
    change (xdiv (Some (0 + 0 + 0 + 0 + 0 + R_sqrt.sqrt 5)%R) (Some 5%R) <> Some 1%R).
    rewrite xdiv_defined by lra. intros [= Hroot].
    pose proof (sqrt_sqrt 5 ltac:(lra)) as Hsq.
    assert (R_sqrt.sqrt 5 = 5)%R as H5 by lra.
    rewrite H5 in Hsq. lra.
Qed.

(** ** C2: the blended column *)

Lemma series_eq_len {num : Type} `{!Arith num} (s1 s2 : Series num) (same : list bool) :
  series_eq s1 s2 = inr same -> series_len s1 = series_len s2.
Proof.
  unfold series_eq.
  destruct (Nat.eqb_spec (series_len s1) (series_len s2)); [easy | discriminate].
Qed.

Lemma convex_weights_exact : convex_weights xreal.
Proof.
  unfold convex_weights, nle.
  change (@nleb xreal exact) with xleb. cbn.
  repeat split; try (apply xleb_le; lra).
  f_equal. lra.
Qed.

Lemma convex_weights_binary64 : convex_weights float.
Proof. repeat split; vm_compute; reflexivity. Qed.

(** C2: when the notebook completes, the Calories column it writes is, row by
    row, [0.7 * pred_A + 0.3 * pred_B] of the predictions of the two input
    files (numeric Calories columns, with as many rows as the file's id
    column).  The two weights are the literals of the code: nonnegative and
    of sum 1, in exact arithmetic and in binary64 alike. *)
Theorem blended_is_weighted_sum {num : Type} `{!Arith num} (fs fs' : FS num)
    (xgb_df lgb_df : DataFrame num) (ids_A ids_B cal_A cal_B : Series num)
    (preds_A preds_B : list num) :
  fs !! xgb_file = Some xgb_df ->
  fs !! lgb_file = Some lgb_df ->
  getitem xgb_df "id" = inr ids_A ->
  getitem xgb_df "Calories" = inr cal_A ->
  floats_of cal_A = inr preds_A ->
  series_len ids_A = length preds_A ->
  getitem lgb_df "id" = inr ids_B ->
  getitem lgb_df "Calories" = inr cal_B ->
  floats_of cal_B = inr preds_B ->
  series_len ids_B = length preds_B ->
  blended_xgb70_lgb30 fs = (inr tt, fs') ->
  fs' !! output_path
    = Some [("id"%string, ids_A);
            ("Calories"%string, SFloat (zip_with blend preds_A preds_B))]
  /\ length preds_A = length preds_B
  /\ convex_weights xreal
  /\ convex_weights float.
Proof.
  intros Hx Hl HidA HA HfA HlenA HidB HB HfB HlenB Hrun.
  rewrite blended_run in Hrun.
  unfold blended_submission, open_csv in Hrun.
  rewrite Hx, Hl in Hrun. cbn in Hrun. rewrite HidA, HidB in Hrun. cbn in Hrun.
  destruct (series_eq ids_A ids_B) as [e | same] eqn:Heq; cbn in Hrun; [discriminate |].
  apply series_eq_len in Heq.
  assert (length preds_A = length preds_B) as Hlen by congruence.
  destruct (all same); cbn in Hrun; [| discriminate].
  rewrite (blended_preds_floats _ _ _ _ _ _ HA HfA HB HfB Hlen) in Hrun. cbn in Hrun.
  injection Hrun as <-.
  split; [apply lookup_insert_eq |].
  split; [exact Hlen |].
  split; [exact convex_weights_exact | exact convex_weights_binary64].
Qed.

Lemma blended_is_weighted_sum_witness :
  (blended_xgb70_lgb30 two_predictions).2 !! output_path
  = Some [("id"%string, SInt [750000; 750001; 750002]%Z);
          ("Calories"%string,
           SFloat (zip_with blend [3; 10.5; 150]%float [3; 11.5; 149]%float))].
Proof.
  refine (proj1 (blended_is_weighted_sum two_predictions _ _ _
                   (SInt [750000; 750001; 750002]%Z) (SInt [750000; 750001; 750002]%Z)
                   (SFloat [3; 10.5; 150]%float) (SFloat [3; 11.5; 149]%float)
                   [3; 10.5; 150]%float [3; 11.5; 149]%float
                   eq_refl eq_refl eq_refl eq_refl eq_refl eq_refl
                   eq_refl eq_refl eq_refl eq_refl _)).
  vm_compute. reflexivity.
Defined.

(** ** C3: the target transform and its inverse *)



(** ** C4: the assertion on the ids *)

(** C4 as stated fails on two files of different length: the id columns differ
    (the second row of one has no counterpart), yet the comparison itself is
    refused with a [ValueError] before the assertion is evaluated. *)
Lemma different_lengths_no_assertion : ~ fails_iff_ids_differ short_lgb_file.
Proof.
  intros Hclaim.
  destruct (Hclaim [750000; 750001]%Z [750000]%Z) as [_ Hfail].
  - eexists. split; reflexivity.
  - eexists. split; reflexivity.
  - destruct Hfail as [msg Hmsg]; [| vm_compute in Hmsg; discriminate].
    exists 1. vm_compute. discriminate.
Qed.

Lemma different_lengths_ValueError :
  (blended_xgb70_lgb30 short_lgb_file).1 = inl ValueError.
Proof. vm_compute. reflexivity. Qed.

(** C4, amended: the notebook ends with an assertion failure exactly when the
    two id columns have the same number of rows and differ at some row; id
    columns of different lengths end it with a [ValueError] instead.  However
    it fails, no file is written (the files are as before), and nothing
    catches the exception. *)
Theorem blending_assertion {num : Type} `{!Arith num} (fs : FS num) :
  (is_error (blended_xgb70_lgb30 fs).1 -> (blended_xgb70_lgb30 fs).2 = fs)
  /\ (forall (xgb_df lgb_df : DataFrame num) (ids_A ids_B : list Z),
        fs !! xgb_file = Some xgb_df ->
        fs !! lgb_file = Some lgb_df ->
        getitem xgb_df "id" = inr (SInt ids_A) ->
        getitem lgb_df "id" = inr (SInt ids_B) ->
        (assertion_failure (blended_xgb70_lgb30 fs).1 <->
           length ids_A = length ids_B
           /\ exists i a b, ids_A !! i = Some a /\ ids_B !! i = Some b /\ a <> b)
        /\ (length ids_A <> length ids_B ->
            (blended_xgb70_lgb30 fs).1 = inl ValueError)).
Proof.
  rewrite blended_run. split.
  - destruct (blended_submission fs); simpl; [reflexivity | contradiction].
  - intros xgb_df lgb_df ids_A ids_B Hx Hl HA HB.
    unfold blended_submission, open_csv. rewrite Hx, Hl. cbn. rewrite HA, HB. cbn.
    unfold series_eq. cbn [series_len].
    destruct (Nat.eqb_spec (length ids_A) (length ids_B)) as [Hlen | Hlen]; cbn.
    + split; [| contradiction].
      destruct (all (zip_with Z.eqb ids_A ids_B)) eqn:Hall; cbn.
      * split.
        -- intros [msg Hmsg].
           destruct (blended_preds xgb_df lgb_df) as [e |] eqn:Hpreds; cbn in Hmsg;
             [| discriminate].
           apply blended_preds_error in Hpreds.
           destruct Hpreds as [-> | [-> | ->]]; discriminate.
        -- intros [_ Hdiff]. apply all_zip_Zeqb in Hdiff. congruence.
      * split.
        -- intros _. split; [exact Hlen | now apply all_zip_Zeqb].
        -- intros _. eexists. reflexivity.
    + split; [| reflexivity].
      split.
      * intros [msg Hmsg]. discriminate.
      * intros [Heq _]. contradiction.
Qed.

Lemma blending_assertion_witness :
  assertion_failure (blended_xgb70_lgb30 mismatched_ids).1
  /\ (blended_xgb70_lgb30 mismatched_ids).2 = mismatched_ids.
Proof.
  destruct (blending_assertion mismatched_ids) as [Hkeep Hiff].
  destruct (Hiff _ _ [750000; 750001]%Z [750000; 750009]%Z eq_refl eq_refl eq_refl eq_refl)
    as [Hassert _].
  assert (assertion_failure (blended_xgb70_lgb30 mismatched_ids).1) as Hfail.
  { apply Hassert. split; [reflexivity |].
    exists 1, 750001%Z, 750009%Z. repeat split. discriminate. }
  split; [exact Hfail |].
  apply Hkeep. destruct Hfail as [msg Hmsg]. rewrite Hmsg. exact I.
Defined.

(** ** C5: the ids of the submissions *)



(** ** C6: one-hot encoding of Sex *)


Lemma only_men_get_dummies :
  get_dummies only_men "Sex" = inr [("Age"%string, SInt [36; 20]%Z)].
Proof. vm_compute. reflexivity. Qed.

(** Through the notebook: with a test set of men only, the train file gets
    the Sex_male column and the test file does not. *)
Lemma only_men_in_test_files :
  (preprocessing_step2 only_men_in_test).1 = inr tt
  /\ (labels <$> (preprocessing_step2 only_men_in_test).2
                   !! "datasets/train_preprocessed.csv"%string)
     = Some ["Age"; "Duration"; "Calories"; "Sex_male"]%string
  /\ (labels <$> (preprocessing_step2 only_men_in_test).2
                   !! "datasets/test_preprocessed.csv"%string)
     = Some ["Age"; "Duration"]%string.
Proof. repeat split; vm_compute; reflexivity. Qed.

Lemma categories_female_male (ss : list string) :
  Forall (fun s => s = "female"%string \/ s = "male"%string) ss ->
  categories ss
  = (if bool_decide ("female"%string ∈ ss) then ["female"%string] else [])
      ++ (if bool_decide ("male"%string ∈ ss) then ["male"%string] else []).
Proof.
  induction 1 as [| s ss Hs _ IH]; [reflexivity |].
  change (categories (s :: ss)) with (insert_cat s (categories ss)).
  rewrite IH.
  rewrite !(bool_decide_ext _ _ (elem_of_cons ss _ s)), !bool_decide_or.
  destruct Hs as [-> | ->];
    destruct (bool_decide ("female"%string ∈ ss)), (bool_decide ("male"%string ∈ ss));
    reflexivity.
Qed.



(** ** C7: preprocessing *)

(** C7: when the notebook completes, both files it writes come from the raw
    ones by the same two steps, dropping id and one-hot encoding Sex; neither
    has an id column; in the train file the Calories column is [log1p] of the
    raw calories, row by row; every other column of the raw files is kept;
    and the test file gets no target column (it has one only if the raw test
    file had). *)
Theorem preprocessing_effect {num : Type} `{!Arith num} `{!Analytic num} (fs fs' : FS num) :
  preprocessing_step2 fs = (inr tt, fs') ->
  exists (train test train_features test_features : DataFrame num)
         (calories : Series num) (raw : list num),
    fs !! "datasets/train.csv"%string = Some train
    /\ fs !! "datasets/test.csv"%string = Some test
    /\ prepare_features train = inr train_features
    /\ prepare_features test = inr test_features
    /\ getitem train "Calories" = inr calories
    /\ floats_of calories = inr raw
    /\ fs' !! "datasets/train_preprocessed.csv"%string
       = Some (setitem train_features "Calories" (SFloat (map nlog1p raw)))
    /\ fs' !! "datasets/test_preprocessed.csv"%string = Some test_features
    /\ getitem (setitem train_features "Calories" (SFloat (map nlog1p raw))) "Calories"
       = inr (SFloat (map nlog1p raw))
    /\ ("id"%string ∉ labels (setitem train_features "Calories" (SFloat (map nlog1p raw))))
    /\ ("id"%string ∉ labels test_features)
    /\ ("Calories"%string ∉ labels test -> "Calories"%string ∉ labels test_features)
    /\ (forall l s, l <> "id"%string -> l <> "Sex"%string -> l <> "Calories"%string ->
                    getitem train l = inr s ->
                    getitem (setitem train_features "Calories" (SFloat (map nlog1p raw))) l
                    = inr s)
    /\ (forall l s, l <> "id"%string -> l <> "Sex"%string ->
                    getitem test l = inr s -> getitem test_features l = inr s).
Proof.
  intros Hrun.
  destruct (preprocessing_writes fs fs' Hrun)
    as (train & test & train2 & test2 & calories & test_ids & raw
        & Htrain & Htest & Hids & Hprep & Hprep' & Hcal & Hraw & ->).
  exists train, test, train2, test2, calories, raw.
  repeat split; try assumption.
  - rewrite lookup_insert_ne by discriminate. rewrite lookup_insert_ne by discriminate.
    apply lookup_insert_eq.
  - rewrite lookup_insert_ne by discriminate. apply lookup_insert_eq.
  - apply getitem_setitem.
  - intros Hid. apply labels_setitem in Hid as [Hid | Hid]; [discriminate |].
    destruct (prepared_label _ _ _ Hprep Hid) as [(Hne & _) | [c Hc]];
      [congruence | discriminate].
  - intros Hid.
    destruct (prepared_label _ _ _ Hprep' Hid) as [(Hne & _) | [c Hc]];
      [congruence | discriminate].
  - intros Hno Hyes.
    destruct (prepared_label _ _ _ Hprep' Hyes) as [(_ & _ & Hlab) | [c Hc]];
      [auto | discriminate].
  - intros l s Hid Hsex Hcalories Hs.
    rewrite getitem_setitem_ne by assumption.
    now apply (prepared_getitem _ _ _ _ Hprep).
  - intros l s Hid Hsex Hs. now apply (prepared_getitem _ _ _ _ Hprep').
Qed.

Lemma preprocessing_effect_witness :
  exists test_features : DataFrame xreal,
    (preprocessing_step2 raw_files).2 !! "datasets/test_preprocessed.csv"%string
    = Some test_features
    /\ ("id"%string ∉ labels test_features).
Proof.
  destruct (preprocessing_effect raw_files (preprocessing_step2 raw_files).2 eq_refl)
    as (train & test & train_features & test_features & calories & raw
        & _ & _ & _ & _ & _ & _ & _ & Hfile & _ & _ & Hid & _).
  exists test_features. split; [exact Hfile | exact Hid].
Defined.

(** ** C8: the four derived columns *)

Section DerivedColumns.
Context {num : Type} `{!Arith num}.






End DerivedColumns.




(** ** C9: the two divisions *)

(** C9 as stated fails in binary64, where a nonzero height can still give a
    zero divisor: for a height of 1e-160 the square of [height / 100]
    underflows to 0.0 and the BMI is an infinity. *)
Lemma tiny_height_zero_divisor_binary64 :
  ~ no_zero_divisor (num := float) 1e-160%float 26%float.
Proof.
  intros H. destruct H as [Hdiv _]; [reflexivity | reflexivity |].
  vm_compute in Hdiv. discriminate.
Qed.

Lemma tiny_height_BMI_binary64 : BMI (num := float) 82%float 1e-160%float = infinity.
Proof. vm_compute. reflexivity. Qed.

(** The same session, through the notebook: it completes and writes the
    infinity. *)
Lemma tiny_height_file_binary64 :
  (feature_engineering_step2b tiny_height_files).1 = inr tt
  /\ (feature_engineering_step2b tiny_height_files).2 !! "datasets/test_fe.csv"%string
     = Some [("Height"%string, SFloat [1e-160]%float);
             ("Weight"%string, SFloat [82]%float);
             ("Duration"%string, SFloat [26]%float);
             ("Heart_Rate"%string, SFloat [101]%float);
             ("Body_Temp"%string, SFloat [41]%float);
             ("BMI"%string, SFloat [infinity]);
             ("Intensity"%string, SFloat [3.8846153846153846]%float);
             ("TempHeart"%string, SFloat [4141]%float);
             ("Duration2"%string, SFloat [676]%float)].
Proof. split; vm_compute; reflexivity. Qed.

Lemma no_zero_divisor_exact (h d : R) : no_zero_divisor (num := xreal) (Some h) (Some d).
Proof.
  unfold no_zero_divisor, nonzero, nsquare.
  change (@neqb xreal exact) with xeqb.
  change (@nofZ xreal exact 0) with (Some 0%R).
  intros Hh Hd. apply xeqb_false in Hh. split; [| exact Hd].
  change (xeqb (xlift2 Rmult (xdiv (Some h) (Some 100%R)) (xdiv (Some h) (Some 100%R)))
               (Some 0%R) = false).
  rewrite xdiv_defined by lra. apply xeqb_false.
  intros H0. apply Rmult_integral in H0. lra.
Qed.

(** C9, amended: neither division is guarded (a zero duration or height
    gives a value that is not a finite number, not an exception), and in
    exact arithmetic, on a frame whose rows all have a nonzero duration and a
    nonzero height, no divisor is zero and every BMI and Intensity value is
    the finite quotient. *)
Theorem ratios_defined_exact (df : DataFrame xreal) (ws hs hrs ds : list R) :
  getitem df "Weight" = inr (SFloat (map Some ws)) ->
  getitem df "Height" = inr (SFloat (map Some hs)) ->
  getitem df "Heart_Rate" = inr (SFloat (map Some hrs)) ->
  getitem df "Duration" = inr (SFloat (map Some ds)) ->
  length ws = length hs -> length hrs = length ds ->
  Forall (fun h => h <> 0%R) hs ->
  Forall (fun d => d <> 0%R) ds ->
  add_BMI df
    = inr (setitem df "BMI"
             (SFloat (zip_with (fun w h => Some (w / (h / 100 * (h / 100)))%R) ws hs)))
  /\ add_Intensity df
     = inr (setitem df "Intensity"
              (SFloat (zip_with (fun hr d => Some (hr / d)%R) hrs ds)))
  /\ (forall h d : R, no_zero_divisor (num := xreal) (Some h) (Some d))
  /\ (forall w hr : R,
        BMI (num := xreal) (Some w) (Some 0%R) = None
        /\ Intensity (num := xreal) (Some hr) (Some 0%R) = None).
Proof.
  intros Hw Hh Hhr Hd Hlen1 Hlen2 Hhs Hds.
  split; [| split; [| split; [| intros w hr; split]]].
  - rewrite (add_BMI_floats df _ _ Hw Hh) by (now rewrite !length_map).
    do 3 f_equal. apply zip_with_fmap_where with (P := fun h => h <> 0%R); [assumption |].
    intros w h Hne. now apply BMI_exact.
  - rewrite (add_Intensity_floats df _ _ Hhr Hd) by (now rewrite !length_map).
    do 3 f_equal. apply zip_with_fmap_where with (P := fun d => d <> 0%R); [assumption |].
    intros hr d Hne. now apply Intensity_exact.
  - intros h d. apply no_zero_divisor_exact.
  - unfold BMI, nsquare.
    change (xdiv (Some w) (xlift2 Rmult (xdiv (Some 0%R) (Some 100%R))
                                        (xdiv (Some 0%R) (Some 100%R))) = None).
    rewrite xdiv_defined by lra. unfold xlift2.
    replace (0 / 100 * (0 / 100))%R with 0%R by lra. apply xdiv_by_zero.
  - apply xdiv_by_zero.
Qed.

Lemma ratios_defined_exact_witness :
  add_BMI sessions_exact
    = inr (setitem sessions_exact "BMI"
             (SFloat [Some (82 / (189 / 100 * (189 / 100))); Some (60 / (163 / 100 * (163 / 100)))]%R))
  /\ add_Intensity sessions_exact
     = inr (setitem sessions_exact "Intensity" (SFloat [Some (101 / 26); Some (85 / 8)]%R)).
Proof.
  pose proof (ratios_defined_exact sessions_exact [82; 60]%R [189; 163]%R
                [101; 85]%R [26; 8]%R eq_refl eq_refl eq_refl eq_refl eq_refl eq_refl) as H.
  destruct H as (Hbmi & Hint & _).
  - repeat constructor; lra.
  - repeat constructor; lra.
  - split; [exact Hbmi | exact Hint].
Defined.

(** ** C10: the blended value and its two inputs *)

(** C10 as stated fails in binary64 where both files predict 3.0:
    [0.7 * 3.0] is 2.0999999999999996, [0.3 * 3.0] is 0.8999999999999999, and
    their sum 2.9999999999999996 is below both inputs. *)
Lemma blend_below_inputs_binary64 : ~ blend_between (num := float) 3%float 3%float.
Proof.
  intros [Hlow _]. vm_compute in Hlow. discriminate.
Qed.

(** The same row, through the notebook. *)
Lemma blended_file_binary64 :
  (blended_xgb70_lgb30 two_predictions).2 !! output_path
  = Some [("id"%string, SInt [750000; 750001; 750002]%Z);
          ("Calories"%string,
           SFloat [2.9999999999999996; 10.799999999999999; 149.69999999999999]%float)].
Proof. vm_compute. reflexivity. Qed.

(** C10, amended: in exact arithmetic, with the weights 7/10 and 3/10, the
    blended prediction of two finite predictions lies between the smaller and
    the larger of them.  In binary64 it can miss that interval by a rounding
    error, but there as well as in exact arithmetic it is nonnegative when
    both predictions are. *)
Theorem blend_between_inputs (a b : R) :
  blend_between (num := xreal) (Some a) (Some b)
  /\ ((0 <= a)%R -> (0 <= b)%R ->
      nle (nofZ 0) (blend (num := xreal) (Some a) (Some b)))
  /\ (forall x y : float,
        nle (nofZ 0) x -> nle (nofZ 0) y -> nle (nofZ 0) (blend x y)).
Proof.
  split; [| split; [| exact blend_nonneg_binary64]].
  - unfold blend_between, nle, nmin, nmax.
    change (@nleb xreal exact) with xleb. rewrite blend_exact.
    destruct (xleb (Some a) (Some b)) eqn:Hab.
    + apply xleb_le in Hab. split; apply xleb_le; lra.
    + assert (b < a)%R as Hba.
      { apply Rnot_le_lt. intros Hle. apply xleb_le in Hle. congruence. }
      split; apply xleb_le; lra.
  - intros Ha Hb. unfold nle.
    change (@nleb xreal exact) with xleb. rewrite blend_exact.
    apply xleb_le. lra.
Qed.

Lemma blend_between_inputs_witness :
  ((0 <= 150)%R /\ (0 <= 148)%R)
  /\ nle (nofZ 0) (blend (num := xreal) (Some 150%R) (Some 148%R))
  /\ nle (nofZ 0) (blend (num := float) 150%float 148%float).
Proof.
  destruct (blend_between_inputs 150 148) as (_ & Hexact & Hbinary).
  split; [split; lra |].
  split; [apply Hexact; lra | apply Hbinary; reflexivity].
Defined.

(** * Further properties of the notebooks *)

(** ** The notebooks as a pure computation followed by the writes *)

Lemma preprocessing_run {num : Type} `{!Arith num} `{!Analytic num} (fs : FS num) :
  preprocessing_step2 fs =
  match preprocessed fs with
  | inl e => (inl e, fs)
  | inr out => (inr tt, preprocessing_files out fs)
  end.
Proof.
  unfold preprocessing_step2, preprocessed, preprocessing_files, open_csv.
  unfold mbind, M_bind, result_bind, read_csv, to_csv, result_ret.
  run_cases.
Qed.

Lemma written_then_read {num : Type} (train test : DataFrame num) (fs : FS num) :
  (to_csv train "datasets/train_fe.csv" ≫= fun _ =>
   to_csv test "datasets/test_fe.csv" ≫= fun _ =>
   read_csv "datasets/train_fe.csv" ≫= fun train_fe =>
   read_csv "datasets/test_fe.csv" ≫= fun test_fe => mret tt) fs
  = (inr tt, engineering_files (train, test) fs).
Proof.
  rewrite !bind_to_csv.
  erewrite bind_read; [erewrite bind_read; [reflexivity |] |].
  - apply lookup_insert_eq.
  - rewrite lookup_insert_ne by discriminate. apply lookup_insert_eq.
Qed.

Lemma feature_engineering_run {num : Type} `{!Arith num} (fs : FS num) :
  feature_engineering_step2b fs =
  match engineered fs with
  | inl e => (inl e, fs)
  | inr out => (inr tt, engineering_files out fs)
  end.
Proof.
  unfold feature_engineering_step2b, engineered, open_csv.
  unfold mbind at 1 2, M_bind at 1 2, read_csv at 1 2.
  destruct (fs !! "datasets/train_preprocessed.csv"%string) as [train |]; [| reflexivity].
  destruct (fs !! "datasets/test_preprocessed.csv"%string) as [test |]; [| reflexivity].
  cbn [mbind result_bind].
  repeat match goal with
         | |- (lift ?r ≫= _) _ = _ =>
             destruct r as [? | ?]; [reflexivity |];
             rewrite (bind_lift _ _ _ _ eq_refl); cbn [mbind result_bind]
         end.
  apply written_then_read.
Qed.

Lemma baseline_run {num : Type} `{!Arith num} `{!Analytic num}
    (shuffle42 : nat -> list nat) (lr rf xgb lgb : Estimator num) (fs : FS num) :
  baseline_modelling_step3 shuffle42 lr rf xgb lgb fs =
  match baseline_submission shuffle42 lr rf xgb lgb fs with
  | inl e => (inl e, fs)
  | inr submission => (inr tt, <["submission_xgb.csv"%string := submission]> fs)
  end.
Proof.
  unfold baseline_modelling_step3, baseline_submission, open_csv.
  unfold mbind, M_bind, result_bind, read_csv, to_csv, result_ret.
  run_cases.
Qed.

(** ** Re-running a notebook *)

(** What a notebook computes depends on the files it opens only. *)
Lemma open_csv_insert_ne {num : Type} (fs : FS num) (path path' : string) (df : DataFrame num) :
  path' <> path -> open_csv (<[path' := df]> fs) path = open_csv fs path.
Proof. intros Hne. unfold open_csv. now rewrite lookup_insert_ne. Qed.

Lemma blended_submission_after {num : Type} `{!Arith num} (fs : FS num) (df : DataFrame num) :
  blended_submission (<[output_path := df]> fs) = blended_submission fs.
Proof.
  unfold blended_submission. now rewrite !open_csv_insert_ne by discriminate.
Qed.

(** X1: the blending notebook changes no file but its output, and running it
    again gives the same outcome and the same files. *)
Theorem blending_rerun {num : Type} `{!Arith num} (fs : FS num) :
  (forall path, path <> output_path -> (blended_xgb70_lgb30 fs).2 !! path = fs !! path)
  /\ blended_xgb70_lgb30 (blended_xgb70_lgb30 fs).2 = blended_xgb70_lgb30 fs.
Proof.
  rewrite (blended_run fs).
  destruct (blended_submission fs) as [e | submission] eqn:Hsub; cbn [snd].
  - split; [reflexivity |]. now rewrite blended_run, Hsub.
  - split.
    + intros path Hne. now rewrite lookup_insert_ne.
    + rewrite blended_run, blended_submission_after, Hsub.
      now rewrite insert_insert_eq.
Qed.

Lemma all_zip_Zeqb_true (ids_A ids_B : list Z) :
  length ids_A = length ids_B ->
  (all (zip_with Z.eqb ids_A ids_B) = true <-> ids_A = ids_B).
Proof.
  revert ids_B. induction ids_A as [| a ids_A IH]; intros [| b ids_B] Hlen;
    try discriminate; simpl.
  - split; reflexivity.
  - injection Hlen as Hlen. rewrite andb_true_iff, Z.eqb_eq, (IH _ Hlen).
    split; [intros [-> ->]; reflexivity | intros [= -> ->]; auto].
Qed.

(** X2: on two files with integer id columns and numeric Calories columns the
    blending notebook completes exactly when the two id columns are the same
    list. *)
Theorem blending_completes_iff {num : Type} `{!Arith num} (fs : FS num)
    (xgb_df lgb_df : DataFrame num) (ids_A ids_B : list Z) (cal_A cal_B : Series num)
    (preds_A preds_B : list num) :
  fs !! xgb_file = Some xgb_df ->
  fs !! lgb_file = Some lgb_df ->
  getitem xgb_df "id" = inr (SInt ids_A) ->
  getitem lgb_df "id" = inr (SInt ids_B) ->
  getitem xgb_df "Calories" = inr cal_A ->
  floats_of cal_A = inr preds_A ->
  getitem lgb_df "Calories" = inr cal_B ->
  floats_of cal_B = inr preds_B ->
  ((blended_xgb70_lgb30 fs).1 = inr tt <-> ids_A = ids_B).
Proof.
  intros Hx Hl HA HB HcA HfA HcB HfB.
  rewrite blended_run. unfold blended_submission, open_csv.
  rewrite Hx, Hl. cbn. rewrite HA, HB. cbn.
  unfold series_eq. cbn [series_len].
  destruct (Nat.eqb_spec (length ids_A) (length ids_B)) as [Hlen | Hlen]; cbn.
  - rewrite <- (all_zip_Zeqb_true _ _ Hlen).
    destruct (all (zip_with Z.eqb ids_A ids_B)); cbn.
    + unfold blended_preds, scalar_mul. rewrite HcA. cbn. rewrite HfA. cbn.
      rewrite HcB. cbn. rewrite HfB. cbn. split; reflexivity.
    + split; discriminate.
  - split; [discriminate | intros ->; contradiction].
Qed.

Lemma blending_completes_iff_witness :
  (blended_xgb70_lgb30 two_predictions).1 = inr tt
  /\ (blended_xgb70_lgb30 mismatched_ids).1 <> inr tt.
Proof.
  split.
  - apply (blending_completes_iff two_predictions _ _
             [750000; 750001; 750002]%Z [750000; 750001; 750002]%Z
             (SFloat [3; 10.5; 150]%float) (SFloat [3; 11.5; 149]%float)
             [3; 10.5; 150]%float [3; 11.5; 149]%float
             eq_refl eq_refl eq_refl eq_refl eq_refl eq_refl eq_refl eq_refl).
    reflexivity.
  - intros Hrun.
    apply (blending_completes_iff mismatched_ids _ _
             [750000; 750001]%Z [750000; 750009]%Z
             (SFloat [3; 10.5]%float) (SFloat [3; 11.5]%float)
             [3; 10.5]%float [3; 11.5]%float
             eq_refl eq_refl eq_refl eq_refl eq_refl eq_refl eq_refl eq_refl) in Hrun.
    discriminate.
Defined.

Lemma preprocessed_after {num : Type} `{!Arith num} `{!Analytic num} (fs : FS num)
    (out : DataFrame num * DataFrame num * Series num) :
  preprocessed (preprocessing_files out fs) = preprocessed fs.
Proof.
  unfold preprocessed, preprocessing_files.
  now rewrite !open_csv_insert_ne by discriminate.
Qed.

Lemma preprocessing_files_twice {num : Type} (fs : FS num)
    (out : DataFrame num * DataFrame num * Series num) :
  preprocessing_files out (preprocessing_files out fs) = preprocessing_files out fs.
Proof.
  unfold preprocessing_files. apply map_eq. intros path.
  rewrite !lookup_insert.
  repeat (destruct (decide (_ = path)); [reflexivity |]). reflexivity.
Qed.

(** X3: the preprocessing notebook writes its three files after the last
    computation: when a cell raises, no file has changed.  It changes no other
    file, and running it again gives the same outcome and the same files. *)
Theorem preprocessing_all_or_nothing {num : Type} `{!Arith num} `{!Analytic num}
    (fs : FS num) :
  (is_error (preprocessing_step2 fs).1 -> (preprocessing_step2 fs).2 = fs)
  /\ (forall path,
        path <> "datasets/train_preprocessed.csv"%string ->
        path <> "datasets/test_preprocessed.csv"%string ->
        path <> "datasets/test_ids.csv"%string ->
        (preprocessing_step2 fs).2 !! path = fs !! path)
  /\ preprocessing_step2 (preprocessing_step2 fs).2 = preprocessing_step2 fs.
Proof.
  rewrite (preprocessing_run fs).
  destruct (preprocessed fs) as [e | out] eqn:Hout; cbn [fst snd is_error].
  - split; [reflexivity |]. split; [reflexivity |]. now rewrite preprocessing_run, Hout.
  - split; [contradiction |]. split.
    + intros path H1 H2 H3. unfold preprocessing_files.
      now rewrite !lookup_insert_ne.
    + rewrite preprocessing_run, preprocessed_after, Hout.
      now rewrite preprocessing_files_twice.
Qed.

Lemma engineered_after {num : Type} `{!Arith num} (fs : FS num)
    (out : DataFrame num * DataFrame num) :
  engineered (engineering_files out fs) = engineered fs.
Proof.
  unfold engineered, engineering_files.
  now rewrite !open_csv_insert_ne by discriminate.
Qed.

Lemma engineering_files_twice {num : Type} (fs : FS num) (out : DataFrame num * DataFrame num) :
  engineering_files out (engineering_files out fs) = engineering_files out fs.
Proof.
  unfold engineering_files. apply map_eq. intros path.
  rewrite !lookup_insert.
  repeat (destruct (decide (_ = path)); [reflexivity |]). reflexivity.
Qed.

(** X4: the feature-engineering notebook writes its two files after the
    last computation: when a cell raises, no file has changed.  It changes no
    other file, and running it again gives the same outcome and the same
    files. *)
Theorem feature_engineering_all_or_nothing {num : Type} `{!Arith num} (fs : FS num) :
  (is_error (feature_engineering_step2b fs).1 -> (feature_engineering_step2b fs).2 = fs)
  /\ (forall path,
        path <> "datasets/train_fe.csv"%string ->
        path <> "datasets/test_fe.csv"%string ->
        (feature_engineering_step2b fs).2 !! path = fs !! path)
  /\ feature_engineering_step2b (feature_engineering_step2b fs).2
     = feature_engineering_step2b fs.
Proof.
  rewrite (feature_engineering_run fs).
  destruct (engineered fs) as [e | out] eqn:Hout; cbn [fst snd is_error].
  - split; [reflexivity |]. split; [reflexivity |].
    now rewrite feature_engineering_run, Hout.
  - split; [contradiction |]. split.
    + intros path H1 H2. unfold engineering_files. now rewrite !lookup_insert_ne.
    + rewrite feature_engineering_run, engineered_after, Hout.
      now rewrite engineering_files_twice.
Qed.

Lemma baseline_submission_after {num : Type} `{!Arith num} `{!Analytic num}
    (shuffle42 : nat -> list nat) (lr rf xgb lgb : Estimator num) (fs : FS num)
    (path : string) (df : DataFrame num) :
  path <> "datasets/train_preprocessed.csv"%string ->
  path <> "datasets/test_preprocessed.csv"%string ->
  path <> "datasets/test_ids.csv"%string ->
  baseline_submission shuffle42 lr rf xgb lgb (<[path := df]> fs)
  = baseline_submission shuffle42 lr rf xgb lgb fs.
Proof.
  intros H1 H2 H3. unfold baseline_submission.
  now rewrite !open_csv_insert_ne by assumption.
Qed.

(** X5: the baseline notebook writes nothing unless it completes, changes
    no file but the submission, and running it again gives the same outcome
    and the same files. *)
Theorem baseline_all_or_nothing {num : Type} `{!Arith num} `{!Analytic num}
    (shuffle42 : nat -> list nat) (lr rf xgb lgb : Estimator num) (fs : FS num) :
  (is_error (baseline_modelling_step3 shuffle42 lr rf xgb lgb fs).1 ->
   (baseline_modelling_step3 shuffle42 lr rf xgb lgb fs).2 = fs)
  /\ (forall path,
        path <> "submission_xgb.csv"%string ->
        (baseline_modelling_step3 shuffle42 lr rf xgb lgb fs).2 !! path = fs !! path)
  /\ baseline_modelling_step3 shuffle42 lr rf xgb lgb
       (baseline_modelling_step3 shuffle42 lr rf xgb lgb fs).2
     = baseline_modelling_step3 shuffle42 lr rf xgb lgb fs.
Proof.
  rewrite (baseline_run _ _ _ _ _ fs).
  destruct (baseline_submission shuffle42 lr rf xgb lgb fs) as [e | out] eqn:Hout;
    cbn [fst snd is_error].
  - split; [reflexivity |]. split; [reflexivity |]. now rewrite baseline_run, Hout.
  - split; [contradiction |]. split.
    + intros path H1. now rewrite lookup_insert_ne.
    + rewrite baseline_run, baseline_submission_after, Hout by discriminate.
      now rewrite insert_insert_eq.
Qed.

(** ** The baseline notebook and its neighbours *)

Lemma engineered_after_submission {num : Type} `{!Arith num} (fs : FS num)
    (df : DataFrame num) :
  engineered (<["submission_xgb.csv"%string := df]> fs) = engineered fs.
Proof.
  unfold engineered. now rewrite !open_csv_insert_ne by discriminate.
Qed.

Lemma baseline_submission_after_features {num : Type} `{!Arith num} `{!Analytic num}
    (shuffle42 : nat -> list nat) (lr rf xgb lgb : Estimator num) (fs : FS num)
    (out : DataFrame num * DataFrame num) :
  baseline_submission shuffle42 lr rf xgb lgb (engineering_files out fs)
  = baseline_submission shuffle42 lr rf xgb lgb fs.
Proof.
  unfold engineering_files. now rewrite !baseline_submission_after by discriminate.
Qed.

(** X6: the baseline notebook and the feature-engineering notebook do not
    see each other's files: each has the same outcome whether or not the
    other ran first, and the two orders leave the same files.  In particular
    the baseline submission is computed from the preprocessed files, not from
    the engineered features. *)
Theorem baseline_and_features_commute {num : Type} `{!Arith num} `{!Analytic num}
    (shuffle42 : nat -> list nat) (lr rf xgb lgb : Estimator num) (fs : FS num) :
  (baseline_modelling_step3 shuffle42 lr rf xgb lgb (feature_engineering_step2b fs).2).1
  = (baseline_modelling_step3 shuffle42 lr rf xgb lgb fs).1
  /\ (feature_engineering_step2b (baseline_modelling_step3 shuffle42 lr rf xgb lgb fs).2).1
     = (feature_engineering_step2b fs).1
  /\ (baseline_modelling_step3 shuffle42 lr rf xgb lgb (feature_engineering_step2b fs).2).2
     = (feature_engineering_step2b (baseline_modelling_step3 shuffle42 lr rf xgb lgb fs).2).2.
Proof.
  rewrite (feature_engineering_run fs), (baseline_run _ _ _ _ _ fs).
  destruct (engineered fs) as [e | out] eqn:Hout;
    destruct (baseline_submission shuffle42 lr rf xgb lgb fs) as [e' | sub] eqn:Hsub;
    cbn [fst snd].
  - rewrite baseline_run, feature_engineering_run, Hout, Hsub. auto.
  - rewrite baseline_run, feature_engineering_run, engineered_after_submission, Hout, Hsub.
    auto.
  - rewrite baseline_run, feature_engineering_run, baseline_submission_after_features,
      Hout, Hsub. auto.
  - rewrite baseline_run, feature_engineering_run, baseline_submission_after_features,
      engineered_after_submission, Hout, Hsub. cbn [fst snd].
    split; [reflexivity |]. split; [reflexivity |].
    unfold engineering_files. apply map_eq. intros path.
    rewrite !lookup_insert.
    repeat (destruct (decide (_ = path)) as [<- |]; try discriminate; try reflexivity).
Qed.



Lemma rmsle_cv_too_few {num : Type} `{!Arith num} `{!Analytic num}
    (shuffle42 : nat -> list nat) (model : Estimator num) (X : DataFrame num)
    (y : Series num) (targets : list num) :
  floats_of y = inr targets ->
  length targets < 5 ->
  rmsle_cv shuffle42 model X y = inl ValueError.
Proof.
  intros Htargets Hfew. unfold rmsle_cv, KFold_split, raise. rewrite Htargets.
  cbn [mbind result_bind].
  destruct (Nat.eqb_spec (nrows X) (length targets)) as [-> | _]; [| reflexivity].
  cbn [negb]. destruct (Nat.ltb_spec (length targets) 5); [reflexivity | lia].
Qed.

(** X8: with fewer than five training rows the baseline notebook stops at the
    first cross-validation with a [ValueError] and writes no submission. *)
Theorem baseline_too_few_rows {num : Type} `{!Arith num} `{!Analytic num}
    (shuffle42 : nat -> list nat) (lr rf xgb lgb : Estimator num) (fs : FS num)
    (train test : DataFrame num) (y : Series num) (targets : list num) :
  fs !! "datasets/train_preprocessed.csv"%string = Some train ->
  fs !! "datasets/test_preprocessed.csv"%string = Some test ->
  getitem train "Calories" = inr y ->
  floats_of y = inr targets ->
  length targets < 5 ->
  baseline_modelling_step3 shuffle42 lr rf xgb lgb fs = (inl ValueError, fs).
Proof.
  intros Htrain Htest Hy Htargets Hfew.
  rewrite baseline_run. unfold baseline_submission, open_csv.
  rewrite Htrain, Htest. cbn [mbind result_bind]. rewrite Hy. cbn [mbind result_bind].
  unfold drop_columns. rewrite bool_decide_eq_true_2 by (eapply getitem_present; eauto).
  cbn [mbind result_bind mret result_ret].
  rewrite (rmsle_cv_too_few _ lr _ _ _ Htargets Hfew). reflexivity.
Qed.

Lemma baseline_too_few_rows_witness :
  baseline_modelling_step3 (fun n => reverse (seq 0 n))
    constant_model constant_model constant_model constant_model
    (preprocessing_step2 competition_sample).2
  = (inl ValueError, (preprocessing_step2 competition_sample).2).
Proof.
  eapply baseline_too_few_rows.
  - reflexivity.
  - reflexivity.
  - reflexivity.
  - reflexivity.
  - cbn. lia.
Defined.

(** ** The preprocessing cells on one frame *)

Lemma drop_columns_absent {num : Type} `{!Arith num} (df : DataFrame num) (key : string) :
  key ∉ labels df -> drop_columns df key = inl (KeyError key).
Proof.
  intros Hkey. unfold drop_columns. now rewrite bool_decide_eq_false_2.
Qed.

Lemma drop_columns_present {num : Type} `{!Arith num} (df : DataFrame num) (key : string) :
  key ∈ labels df -> drop_columns df key = inr (filter (fun c => c.1 <> key) df).
Proof.
  intros Hkey. unfold drop_columns. now rewrite bool_decide_eq_true_2.
Qed.

Lemma get_dummies_absent {num : Type} `{!Arith num} (df : DataFrame num) (key : string) :
  key ∉ labels df -> get_dummies df key = inl (KeyError key).
Proof.
  intros Hkey. unfold get_dummies. now rewrite getitem_absent.
Qed.

Lemma prepared_without_id_and_sex {num : Type} `{!Arith num} (df df' : DataFrame num) :
  prepare_features df = inr df' ->
  ("id"%string ∉ labels df') /\ ("Sex"%string ∉ labels df').
Proof.
  intros Hprep. split; intros Hl;
    destruct (prepared_label _ _ _ Hprep Hl) as [(? & ? & _) | [c Hc]];
    try congruence; discriminate.
Qed.

(** X9: once the id column is dropped and Sex is encoded, the frame has
    neither column, and running either cell again raises a [KeyError]. *)
Theorem prepared_once {num : Type} `{!Arith num} (df df' : DataFrame num) :
  prepare_features df = inr df' ->
  ("id"%string ∉ labels df')
  /\ ("Sex"%string ∉ labels df')
  /\ drop_columns df' "id" = inl (KeyError "id")
  /\ get_dummies df' "Sex" = inl (KeyError "Sex")
  /\ prepare_features df' = inl (KeyError "id").
Proof.
  intros Hprep. destruct (prepared_without_id_and_sex _ _ Hprep) as [Hid Hsex].
  split; [exact Hid |]. split; [exact Hsex |].
  split; [now apply drop_columns_absent |].
  split; [now apply get_dummies_absent |].
  unfold prepare_features. now rewrite drop_columns_absent.
Qed.

Lemma prepared_once_witness :
  exists df' : DataFrame xreal,
    prepare_features tagged_sessions = inr df'
    /\ prepare_features df' = inl (KeyError "id").
Proof.
  eexists. split; [reflexivity |].
  apply (prepared_once tagged_sessions). reflexivity.
Defined.

(** ** Train and test keep the same feature columns *)

Lemma labels_filter {num : Type} `{!Arith num} (df : DataFrame num) (key : string) :
  labels (filter (fun c => c.1 <> key) df) = filter (fun l => l <> key) (labels df).
Proof.
  induction df as [| [l s] df IH]; [reflexivity |].
  unfold labels in *. cbn [map fst]. rewrite !filter_cons. cbn [fst].
  destruct (decide (l <> key)); cbn [map fst]; now rewrite IH.
Qed.

Lemma labels_setitem_present {num : Type} `{!Arith num} (df : DataFrame num) (key : string)
    (s s' : Series num) :
  getitem df key = inr s -> labels (setitem df key s') = labels df.
Proof.
  induction df as [| [l c] df IH]; [discriminate |].
  cbn. destruct (String.eqb l key) eqn:Hl; [reflexivity |].
  intros Hs. cbn. f_equal. now apply IH.
Qed.

Lemma prepare_features_spec {num : Type} `{!Arith num} (df : DataFrame num) (ss : list string) :
  "id"%string ∈ labels df ->
  getitem df "Sex" = inr (SStr ss) ->
  prepare_features df
  = inr (filter (fun c => c.1 <> "Sex"%string) (filter (fun c => c.1 <> "id"%string) df)
           ++ dummy_columns "Sex" ss).
Proof.
  intros Hid Hsex. unfold prepare_features. rewrite drop_columns_present by exact Hid.
  cbn [mbind result_bind]. unfold get_dummies.
  rewrite getitem_filter_ne by discriminate. now rewrite Hsex.
Qed.

Lemma dummy_columns_both_sexes {num : Type} `{!Arith num} (ss : list string) :
  both_sexes ss ->
  dummy_columns (num := num) "Sex" ss
  = [("Sex_male"%string, SBool (map (String.eqb "male") ss))].
Proof.
  intros (Hss & Hf & Hm). unfold dummy_columns.
  rewrite (categories_female_male ss Hss).
  rewrite !bool_decide_eq_true_2 by assumption. reflexivity.
Qed.

Lemma prepared_feature_labels {num : Type} `{!Arith num} (df : DataFrame num)
    (ss : list string) :
  "id"%string ∈ labels df ->
  getitem df "Sex" = inr (SStr ss) ->
  both_sexes ss ->
  exists df',
    prepare_features df = inr df'
    /\ feature_labels df'
       = filter (fun l => l <> "Sex"%string)
           (filter (fun l => l <> "id"%string) (feature_labels df)) ++ ["Sex_male"%string].
Proof.
  intros Hid Hsex Hboth. eexists. split; [apply (prepare_features_spec df ss); assumption |].
  rewrite dummy_columns_both_sexes by exact Hboth.
  unfold feature_labels. rewrite labels_app, !labels_filter, filter_app.
  f_equal. rewrite !list_filter_filter. apply list_filter_iff. tauto.
Qed.

Lemma preprocessed_spec {num : Type} `{!Arith num} `{!Analytic num} (fs : FS num)
    (train test train_features test_features : DataFrame num)
    (ids calories : Series num) (raw : list num) :
  fs !! "datasets/train.csv"%string = Some train ->
  fs !! "datasets/test.csv"%string = Some test ->
  getitem test "id" = inr ids ->
  prepare_features train = inr train_features ->
  prepare_features test = inr test_features ->
  getitem train_features "Calories" = inr calories ->
  floats_of calories = inr raw ->
  preprocessed fs
  = inr (setitem train_features "Calories" (SFloat (map nlog1p raw)), test_features, ids).
Proof.
  intros Htrain Htest Hids Hptrain Hptest Hcal Hraw.
  unfold preprocessed, open_csv. rewrite Htrain, Htest. cbn [mbind result_bind].
  rewrite Hids. cbn [mbind result_bind].
  unfold prepare_features in Hptrain, Hptest.
  destruct (drop_columns train "id") as [e | train1]; [discriminate |].
  destruct (drop_columns test "id") as [e | test1]; [discriminate |].
  cbn [mbind result_bind] in *. rewrite Hptrain, Hptest. cbn [mbind result_bind].
  rewrite Hcal. cbn [mbind result_bind]. unfold series_log1p. rewrite Hraw. reflexivity.
Qed.

(** X10: when both sexes occur in the training file and in the test file,
    and the two files have the same feature columns, the preprocessing
    notebook completes and the two files it writes have the same feature
    columns again, in the same order: those of the input without id and Sex,
    then Sex_male. *)
Theorem preprocessing_keeps_schema {num : Type} `{!Arith num} `{!Analytic num}
    (fs : FS num) (train test : DataFrame num) (ids calories : Series num)
    (ss ss' : list string) (raw : list num) :
  fs !! "datasets/train.csv"%string = Some train ->
  fs !! "datasets/test.csv"%string = Some test ->
  "id"%string ∈ labels train ->
  getitem test "id" = inr ids ->
  getitem train "Sex" = inr (SStr ss) ->
  getitem test "Sex" = inr (SStr ss') ->
  both_sexes ss ->
  both_sexes ss' ->
  getitem train "Calories" = inr calories ->
  floats_of calories = inr raw ->
  feature_labels train = feature_labels test ->
  exists train_out test_out : DataFrame num,
    preprocessing_step2 fs = (inr tt, preprocessing_files (train_out, test_out, ids) fs)
    /\ feature_labels train_out = feature_labels test_out
    /\ feature_labels test_out
       = filter (fun l => l <> "Sex"%string)
           (filter (fun l => l <> "id"%string) (feature_labels test)) ++ ["Sex_male"%string].
Proof.
  intros Htrain Htest Hid Hids Hsex Hsex' Hboth Hboth' Hcal Hraw Hschema.
  destruct (prepared_feature_labels train ss Hid Hsex Hboth) as (train1 & Hptrain & Hltrain).
  destruct (prepared_feature_labels test ss' (getitem_present _ _ _ Hids) Hsex' Hboth')
    as (test1 & Hptest & Hltest).
  assert (Hcal1 : getitem train1 "Calories" = inr calories)
    by (now apply (prepared_getitem train train1)).
  exists (setitem train1 "Calories" (SFloat (map nlog1p raw))), test1.
  split; [| split].
  - rewrite preprocessing_run.
    now rewrite (preprocessed_spec fs train test train1 test1 ids calories raw).
  - unfold feature_labels at 1. rewrite (labels_setitem_present _ _ _ _ Hcal1).
    fold (feature_labels train1). now rewrite Hltrain, Hltest, Hschema.
  - exact Hltest.
Qed.

Lemma preprocessing_keeps_schema_witness :
  exists train_out test_out : DataFrame xreal,
    (preprocessing_step2 competition_sample).2 !! "datasets/train_preprocessed.csv"%string
    = Some train_out
    /\ (preprocessing_step2 competition_sample).2 !! "datasets/test_preprocessed.csv"%string
       = Some test_out
    /\ feature_labels train_out = feature_labels test_out.
Proof.
  destruct (preprocessing_keeps_schema competition_sample _ _
              (SInt [750000; 750001]%Z)
              (SFloat [Some 150; Some 34]%R)
              ["male"; "female"]%string ["female"; "male"]%string
              [Some 150; Some 34]%R eq_refl eq_refl)
    as (train_out & test_out & Hrun & Hlabels & _).
  - cbn. apply list_elem_of_here.
  - reflexivity.
  - reflexivity.
  - reflexivity.
  - split; [| split].
    + repeat (constructor; [first [now left | now right] |]). constructor.
    + cbn. apply list_elem_of_further, list_elem_of_here.
    + cbn. apply list_elem_of_here.
  - split; [| split].
    + repeat (constructor; [first [now left | now right] |]). constructor.
    + cbn. apply list_elem_of_here.
    + cbn. apply list_elem_of_further, list_elem_of_here.
  - reflexivity.
  - reflexivity.
  - reflexivity.
  - exists train_out, test_out. rewrite Hrun. cbn [snd]. unfold preprocessing_files.
    split; [| split].
    + rewrite !lookup_insert_ne by discriminate. apply lookup_insert_eq.
    + rewrite lookup_insert_ne by discriminate. apply lookup_insert_eq.
    + exact Hlabels.
Defined.

(** ** The feature cells on a frame that has the derived columns *)

Lemma getitem_app_r {num : Type} `{!Arith num} (df ext : DataFrame num) (key : string) :
  key ∉ labels df -> getitem (df ++ ext) key = getitem ext key.
Proof.
  induction df as [| [l s] df IH]; [reflexivity |].
  cbn. intros Hkey. apply not_elem_of_cons in Hkey as [Hne Hkey].
  destruct (String.eqb l key) eqn:Hl; [apply String.eqb_eq in Hl; congruence |].
  now apply IH.
Qed.

Lemma setitem_same {num : Type} `{!Arith num} (df : DataFrame num) (key : string)
    (s : Series num) :
  getitem df key = inr s -> setitem df key s = df.
Proof.
  induction df as [| [l c] df IH]; [discriminate |].
  cbn. destruct (String.eqb l key) eqn:Hl.
  - intros [= ->]. reflexivity.
  - intros Hs. f_equal. now apply IH.
Qed.

Lemma session_columns_by_labels {num : Type} `{!Arith num} (cols : DataFrame num)
    (ws hs ds hrs bts : list num) :
  getitem cols "Weight" = inr (SFloat ws) ->
  getitem cols "Height" = inr (SFloat hs) ->
  getitem cols "Duration" = inr (SFloat ds) ->
  getitem cols "Heart_Rate" = inr (SFloat hrs) ->
  getitem cols "Body_Temp" = inr (SFloat bts) ->
  length hs = length ws -> length ds = length ws ->
  length hrs = length ws -> length bts = length ws ->
  forallb (fun l => negb (existsb (String.eqb l) (labels cols)))
          ["BMI"; "Intensity"; "TempHeart"; "Duration2"]%string = true ->
  session_columns cols ws hs ds hrs bts.
Proof.
  intros Hw Hh Hd Hhr Hbt Lh Ld Lhr Lbt Hfresh.
  repeat (split; [assumption |]).
  apply Forall_forall. intros l Hl Hin.
  apply list_elem_of_In in Hl.
  rewrite forallb_forall in Hfresh. specialize (Hfresh l Hl).
  apply negb_true_iff in Hfresh.
  assert (existsb (String.eqb l) (labels cols) = true) as Hex; [| congruence].
  apply existsb_exists. exists l. split; [now apply list_elem_of_In | apply String.eqb_refl].
Qed.

(** X11: on a frame that already has the four derived columns each feature
    cell gives the frame back: the cells can be run again, one by one or
    all four, without changing a value or adding a column. *)
Theorem feature_cells_idempotent {num : Type} `{!Arith num} (df : DataFrame num)
    (ws hs ds hrs bts : list num) :
  session_columns df ws hs ds hrs bts ->
  let out := df ++ derived_columns ws hs ds hrs bts in
  add_BMI out = inr out
  /\ add_Intensity out = inr out
  /\ add_TempHeart out = inr out
  /\ add_Duration2 out = inr out
  /\ engineer out = inr out.
Proof.
  intros (Hw & Hh & Hd & Hhr & Hbt & Lh & Ld & Lhr & Lbt & Hfresh) out.
  apply Forall_cons in Hfresh as [Fbmi Hfresh].
  apply Forall_cons in Hfresh as [Fint Hfresh].
  apply Forall_cons in Hfresh as [Fth Hfresh].
  apply Forall_cons in Hfresh as [Fd2 _].
  assert (Hbmi : add_BMI out = inr out).
  { unfold out. rewrite (add_BMI_floats _ ws hs) by (try apply getitem_app_l; congruence).
    f_equal. apply setitem_same. now rewrite getitem_app_r. }
  assert (Hint : add_Intensity out = inr out).
  { unfold out.
    rewrite (add_Intensity_floats _ hrs ds) by (try apply getitem_app_l; congruence).
    f_equal. apply setitem_same. now rewrite getitem_app_r. }
  assert (Hth : add_TempHeart out = inr out).
  { unfold out.
    rewrite (add_TempHeart_floats _ bts hrs) by (try apply getitem_app_l; congruence).
    f_equal. apply setitem_same. now rewrite getitem_app_r. }
  assert (Hd2 : add_Duration2 out = inr out).
  { unfold out. rewrite (add_Duration2_floats _ ds) by (now apply getitem_app_l).
    f_equal. apply setitem_same. now rewrite getitem_app_r. }
  repeat (split; [assumption |]).
  unfold engineer. rewrite Hbmi. cbn [mbind result_bind].
  rewrite Hint. cbn [mbind result_bind]. rewrite Hth. cbn [mbind result_bind]. exact Hd2.
Qed.

Lemma feature_cells_idempotent_witness :
  let out : DataFrame float :=
    [("Height"%string, SFloat [161]%float);
     ("Weight"%string, SFloat [64]%float);
     ("Duration"%string, SFloat [7]%float);
     ("Heart_Rate"%string, SFloat [84]%float);
     ("Body_Temp"%string, SFloat [39.8]%float)]
      ++ derived_columns [64]%float [161]%float [7]%float [84]%float [39.8]%float in
  engineer out = inr out.
Proof.
  apply (feature_cells_idempotent
           [("Height"%string, SFloat [161]%float);
            ("Weight"%string, SFloat [64]%float);
            ("Duration"%string, SFloat [7]%float);
            ("Heart_Rate"%string, SFloat [84]%float);
            ("Body_Temp"%string, SFloat [39.8]%float)]
           [64]%float [161]%float [7]%float [84]%float [39.8]%float).
  apply session_columns_by_labels; reflexivity.
Defined.

(** ** From the raw files to the engineered features *)






(** ** The folds of the cross-validation *)

Lemma slices_sublist (sizes indices : list nat) :
  Forall (fun fold => fold `sublist_of` indices) (slices sizes indices).
Proof.
  revert indices. induction sizes as [| size sizes IH]; intros indices; cbn.
  - constructor.
  - constructor; [apply sublist_take |].
    eapply Forall_impl; [apply IH |]. cbn beta. intros fold Hfold.
    etransitivity; [exact Hfold | apply sublist_drop].
Qed.

Lemma held_out_rows (n : nat) (indices held_out : list nat) :
  indices ≡ₚ seq 0 n ->
  held_out `sublist_of` indices ->
  filter (fun i => i ∈ held_out) (seq 0 n) ≡ₚ held_out.
Proof.
  intros Hperm Hsub. apply NoDup_Permutation.
  - apply NoDup_filter, NoDup_seq.
  - eapply sublist_NoDup; [| exact Hsub]. rewrite Hperm. apply NoDup_seq.
  - intros i. rewrite list_elem_of_filter. split; [tauto |].
    intros Hi. split; [exact Hi |]. rewrite <- Hperm. eapply elem_of_sublist; eassumption.
Qed.

Lemma concat_map_Permutation {A : Type} (f : list A -> list A) (ls : list (list A)) :
  Forall (fun l => f l ≡ₚ l) ls -> concat (map f ls) ≡ₚ concat ls.
Proof.
  induction 1 as [| l ls Hl _ IH]; [reflexivity |].
  cbn. now rewrite Hl, IH.
Qed.

(** X13: with at least five rows and a shuffle that is a permutation,
    [KFold] gives five (train, test) pairs; in each the training rows and the
    held-out rows are disjoint and together are all the rows, neither side is
    empty, and over the five pairs every row is held out exactly once. *)
Theorem KFold_no_leakage (shuffle42 : nat -> list nat) (n : nat) :
  5 <= n ->
  shuffle42 n ≡ₚ seq 0 n ->
  exists folds : list (list nat * list nat),
    KFold_split shuffle42 5 n = inr folds
    /\ length folds = 5
    /\ Forall (fun fold =>
                 fold.1 ++ fold.2 ≡ₚ seq 0 n
                 /\ (forall i, i ∈ fold.2 -> i ∉ fold.1)
                 /\ (length fold.2 = n / 5 \/ length fold.2 = n / 5 + 1)
                 /\ 0 < length fold.2 < n) folds
    /\ concat (map snd folds) ≡ₚ seq 0 n.
Proof.
  intros Hfive Hperm.
  assert (Hsum : sum_list (fold_sizes n 5) = length (shuffle42 n)).
  { rewrite sum_fold_sizes_5. symmetry. rewrite (Permutation_length Hperm).
    apply length_seq. }
  assert (Hsizes : Forall (fun fold => length fold = n / 5 \/ length fold = n / 5 + 1)
                          (slices (fold_sizes n 5) (shuffle42 n))).
  { eapply Forall2_Forall_l; [apply slices_sizes, Hsum |].
    eapply Forall_impl; [apply fold_sizes_5_each |].
    intros size Hsize fold Hlen. cbv beta in Hlen. now rewrite Hlen. }
  assert (Hheld : Forall (fun fold => filter (fun i => i ∈ fold) (seq 0 n) ≡ₚ fold)
                         (slices (fold_sizes n 5) (shuffle42 n))).
  { eapply Forall_impl; [apply slices_sublist |]. cbn beta. intros fold Hfold.
    now apply (held_out_rows n (shuffle42 n)). }
  eexists. unfold KFold_split.
  destruct (Nat.ltb_spec n 5) as [Hlt | _]; [lia |].
  split; [reflexivity |].
  split; [now rewrite length_map, length_slices |].
  split.
  - apply Forall_map.
    rewrite Forall_forall in Hsizes, Hheld. apply Forall_forall.
    intros fold Hfold. cbn [fst snd].
    specialize (Hsizes fold Hfold). specialize (Hheld fold Hfold).
    split; [| split; [| split]].
    + rewrite Permutation_app_comm. apply filter_app_complement.
    + intros i [Hi _]%list_elem_of_filter [Hni _]%list_elem_of_filter. contradiction.
    + now rewrite Hheld.
    + rewrite Hheld.
      assert (1 <= n / 5) by (apply Nat.div_le_lower_bound; lia).
      assert (n / 5 + 1 < n); [| lia].
      assert (5 * (n / 5) <= n) by apply Nat.Div0.mul_div_le. lia.
  - rewrite map_map. cbn [snd].
    rewrite (concat_map_Permutation (fun fold => filter (fun i => i ∈ fold) (seq 0 n)))
      by exact Hheld.
    now rewrite concat_slices.
Qed.

Lemma KFold_no_leakage_witness :
  exists folds : list (list nat * list nat),
    KFold_split (fun n => rev (seq 0 n)) 5 7 = inr folds
    /\ concat (map snd folds) ≡ₚ seq 0 7.
Proof.
  destruct (KFold_no_leakage (fun n => rev (seq 0 n)) 7) as (folds & Hsplit & _ & _ & Hall).
  - lia.
  - symmetry. apply Permutation_rev.
  - exists folds. split; [exact Hsplit | exact Hall].
Defined.

(** ** The submission of the baseline notebook *)



(** ** The blending notebook and the other three *)

Lemma blended_submission_insert_ne {num : Type} `{!Arith num} (fs : FS num)
    (path : string) (df : DataFrame num) :
  path <> xgb_file -> path <> lgb_file ->
  blended_submission (<[path := df]> fs) = blended_submission fs.
Proof.
  intros Hxgb Hlgb. unfold blended_submission.
  now rewrite !open_csv_insert_ne.
Qed.

Lemma blending_same_inputs {num : Type} `{!Arith num} (fs fs' : FS num) :
  blended_submission fs' = blended_submission fs ->
  (blended_xgb70_lgb30 fs').1 = (blended_xgb70_lgb30 fs).1
  /\ ((blended_xgb70_lgb30 fs).1 = inr tt ->
      (blended_xgb70_lgb30 fs').2 !! output_path = (blended_xgb70_lgb30 fs).2 !! output_path).
Proof.
  intros Hsame. rewrite !blended_run, Hsame.
  destruct (blended_submission fs) as [e | out]; cbn [fst snd].
  - split; [reflexivity | discriminate].
  - split; [reflexivity | intros _]. now rewrite !lookup_insert_eq.
Qed.

(** X15: none of the other three notebooks writes a file the blending
    notebook reads: after any of them the blending notebook has the same
    outcome as before and, when it completes, writes the same blended
    file. *)
Theorem blending_reads_no_pipeline_file {num : Type} `{!Arith num} `{!Analytic num}
    (shuffle42 : nat -> list nat) (lr rf xgb lgb : Estimator num) (fs : FS num) :
  Forall (fun fs' : FS num =>
            (blended_xgb70_lgb30 fs').1 = (blended_xgb70_lgb30 fs).1
            /\ ((blended_xgb70_lgb30 fs).1 = inr tt ->
                (blended_xgb70_lgb30 fs').2 !! output_path
                = (blended_xgb70_lgb30 fs).2 !! output_path))
         [(preprocessing_step2 fs).2;
          (feature_engineering_step2b fs).2;
          (baseline_modelling_step3 shuffle42 lr rf xgb lgb fs).2].
Proof.
  apply Forall_cons_2; [| apply Forall_cons_2; [| apply Forall_cons_2; [| apply Forall_nil_2]]];
    apply blending_same_inputs.
  - rewrite preprocessing_run. destruct (preprocessed fs) as [e | out]; [reflexivity |].
    cbn [snd]. unfold preprocessing_files.
    now rewrite !blended_submission_insert_ne by discriminate.
  - rewrite feature_engineering_run. destruct (engineered fs) as [e | out]; [reflexivity |].
    cbn [snd]. unfold engineering_files.
    now rewrite !blended_submission_insert_ne by discriminate.
  - rewrite baseline_run.
    destruct (baseline_submission shuffle42 lr rf xgb lgb fs) as [e | out]; [reflexivity |].
    cbn [snd]. now rewrite blended_submission_insert_ne by discriminate.
Qed.

(** ** The cross-validated score is a number *)

Lemma held_out_folds (shuffle42 : nat -> list nat) (n : nat) :
  5 <= n ->
  shuffle42 n ≡ₚ seq 0 n ->
  Forall (fun fold => filter (fun i => i ∈ fold) (seq 0 n) ≡ₚ fold /\ 0 < length fold)
         (slices (fold_sizes n 5) (shuffle42 n)).
Proof.
  intros Hfive Hperm.
  assert (Hsum : sum_list (fold_sizes n 5) = length (shuffle42 n)).
  { rewrite sum_fold_sizes_5. symmetry. rewrite (Permutation_length Hperm).
    apply length_seq. }
  apply Forall_and. split.
  - eapply Forall_impl; [apply slices_sublist |]. cbn beta. intros fold Hfold.
    now apply (held_out_rows n (shuffle42 n)).
  - eapply Forall2_Forall_l; [apply slices_sizes, Hsum |].
    eapply Forall_impl; [apply fold_sizes_5_each |].
    intros size Hsize fold Hlen. cbv beta in Hsize, Hlen.
    assert (1 <= n / 5) by (apply Nat.div_le_lower_bound; lia). lia.
Qed.

Lemma length_positions {A : Type} (idx : list nat) (xs : list A) :
  Forall (fun i => i < length xs) idx -> length (positions idx xs) = length idx.
Proof.
  unfold positions. induction 1 as [| i idx Hi _ IH]; [reflexivity |].
  cbn. destruct (lookup_lt_is_Some_2 xs i Hi) as [x ->]. cbn. now rewrite IH.
Qed.

Lemma Forall_positions {A : Type} (P : A -> Prop) (idx : list nat) (xs : list A) :
  Forall P xs -> Forall P (positions idx xs).
Proof.
  intros HP. unfold positions. induction idx as [| i idx IH]; [constructor |].
  cbn. destruct (xs !! i) as [x |] eqn:Hx; [| exact IH].
  cbn. constructor; [| exact IH]. exact (Forall_lookup_1 P xs i x HP Hx).
Qed.

Lemma series_len_iloc {num : Type} `{!Arith num} (s : Series num) (idx : list nat) :
  Forall (fun i => i < series_len s) idx -> series_len (series_iloc s idx) = length idx.
Proof.
  destruct s; cbn; apply length_positions.
Qed.

Lemma nrows_iloc {num : Type} `{!Arith num} (X : DataFrame num) (idx : list nat) :
  X <> [] ->
  Forall (fun i => i < nrows X) idx -> nrows (iloc X idx) = length idx.
Proof.
  destruct X as [| [l s] X]; [congruence |]. intros _. cbn. apply series_len_iloc.
Qed.

Lemma length_predict {num : Type} `{!Arith num} (fitted : list (cell num) -> num)
    (df : DataFrame num) :
  length (predict fitted df) = nrows df.
Proof.
  unfold predict, rows. now rewrite !length_map, length_seq.
Qed.

Lemma foldl_finite_nonneg (xs : list xreal) (a : xreal) :
  finite_nonneg a -> Forall finite_nonneg xs -> finite_nonneg (foldl nadd a xs).
Proof.
  intros Ha Hxs. revert a Ha. induction Hxs as [| x xs Hx _ IH]; intros a Ha; [exact Ha |].
  cbn [foldl]. apply IH. destruct Ha as (u & -> & Hu), Hx as (v & -> & Hv).
  exists (u + v)%R. split; [reflexivity | lra].
Qed.

Lemma nmean_finite_nonneg (xs : list xreal) :
  0 < length xs -> Forall finite_nonneg xs -> finite_nonneg (nmean xs).
Proof.
  intros Hlen Hxs. unfold nmean, nsum.
  destruct (foldl_finite_nonneg xs (nofZ 0)) as (s & -> & Hs);
    [exists 0%R; split; [reflexivity | lra] | exact Hxs |].
  assert (Hpos : (0 < IZR (Z.of_nat (length xs)))%R) by (apply IZR_lt; lia).
  change (finite_nonneg (xdiv (Some s) (Some (IZR (Z.of_nat (length xs)))))).
  rewrite xdiv_defined by lra.
  eexists. split; [reflexivity |]. apply Rle_mult_inv_pos; assumption.
Qed.

Lemma msle_finite_nonneg (y_true y_pred : list xreal) :
  0 < length y_true -> 0 < length y_pred ->
  Forall finite_nonneg y_true -> Forall finite_nonneg y_pred ->
  finite_nonneg (mean_squared_log_error y_true y_pred).
Proof.
  intros Ht Hp Ftrue Fpred. unfold mean_squared_log_error.
  apply nmean_finite_nonneg.
  - rewrite length_zip_with. lia.
  - clear Ht Hp. revert y_pred Fpred.
    induction Ftrue as [| t ts (a & -> & Ha) _ IH]; intros ps Fpred; [constructor |].
    destruct Fpred as [| p ps (b & -> & Hb) Fps]; [constructor |].
    cbn [zip_with]. constructor; [| now apply IH].
    cbn. unfold xlog1p.
    destruct (Rlt_dec (-1) a) as [_ | Hn]; [| lra].
    destruct (Rlt_dec (-1) b) as [_ | Hn]; [| lra].
    cbn. eexists. split; [reflexivity |]. apply Rle_0_sqr.
Qed.

Lemma Forall_filter_seq (n : nat) (P : nat -> Prop) `{!forall i, Decision (P i)} :
  Forall (fun i => i < n) (filter P (seq 0 n)).
Proof.
  apply Forall_forall. intros i [_ Hi%elem_of_seq]%list_elem_of_filter. lia.
Qed.

(** X16: in exact arithmetic, when the targets and the model's predictions
    are finite and not negative, there are at least five rows and the shuffle
    is a permutation, the cross-validated score is a finite number that is
    not negative: no fold is empty and no logarithm or square root leaves its
    domain. *)
Theorem rmsle_cv_is_a_number (shuffle42 : nat -> list nat) (model : Estimator xreal)
    (X : DataFrame xreal) (y : Series xreal) (targets : list xreal) :
  floats_of y = inr targets ->
  nrows X = length targets ->
  5 <= length targets ->
  shuffle42 (length targets) ≡ₚ seq 0 (length targets) ->
  Forall finite_nonneg targets ->
  (forall X' y' r, finite_nonneg (fit model X' y' r)) ->
  exists score : R,
    rmsle_cv shuffle42 model X y = inr (Some score) /\ (0 <= score)%R.
Proof.
  intros Hy Hrows Hfive Hperm Ftargets Fmodel.
  assert (HX : X <> []) by (destruct X; [cbn in Hrows; lia | discriminate]).
  unfold rmsle_cv. rewrite Hy. cbn [mbind result_bind].
  rewrite Hrows, Nat.eqb_refl. cbn [negb]. unfold KFold_split.
  destruct (Nat.ltb_spec (length targets) 5) as [Hlt | _]; [lia |].
  cbn [mbind result_bind mret result_ret].
  match goal with
  | |- context [nsqrt (nmean ?scores)] =>
      assert (finite_nonneg (nmean scores)) as (m & Hm & Hm0)
  end.
  { apply nmean_finite_nonneg.
    - unfold cross_val_score. rewrite !length_map, length_slices.
      unfold fold_sizes. rewrite length_map, length_seq. lia.
    - unfold cross_val_score. rewrite !map_map. apply Forall_map.
      eapply Forall_impl; [apply (held_out_folds shuffle42 _ Hfive Hperm) |].
      cbn beta. intros fold [Hheld Hpos]. rewrite xneg_involutive.
      pose proof (Permutation_length Hheld) as Hlen.
      apply msle_finite_nonneg.
      + rewrite length_positions by apply Forall_filter_seq. lia.
      + rewrite length_predict, nrows_iloc;
          [lia | exact HX | rewrite Hrows; apply Forall_filter_seq].
      + now apply Forall_positions.
      + unfold predict. apply Forall_map, Forall_forall. intros r _. apply Fmodel. }
  rewrite Hm. cbn. unfold xsqrt.
  destruct (Rle_dec 0 m) as [_ | Hn]; [| contradiction].
  eexists. split; [reflexivity | apply sqrt_pos].
Qed.

Lemma rmsle_cv_is_a_number_witness :
  exists score : R,
    rmsle_cv (fun n => rev (seq 0 n)) constant_model five_sessions
      (SFloat (map Some five_targets)) = inr (Some score)
    /\ (0 <= score)%R.
Proof.
  apply (rmsle_cv_is_a_number _ constant_model five_sessions _ (map Some five_targets)).
  - reflexivity.
  - reflexivity.
  - cbn. lia.
  - symmetry. apply Permutation_rev.
  - unfold five_targets. repeat (constructor; [eexists; split; [reflexivity | lra] |]).
    constructor.
  - intros X' y' r. exists 4%R. split; [reflexivity | lra].
Defined.

(** ** From the raw files to the baseline submission *)






Lemma floats_of_length {num : Type} `{!Arith num} (s : Series num) (xs : list num) :
  floats_of s = inr xs -> length xs = series_len s.
Proof.
  destruct s; cbn; intros [= <-]; [reflexivity | apply length_map].
Qed.






